(** * SPRA: material requirements planning (src/app.py, src/models.py)

    A shallow embedding of the MRP routes of the SPRA Flask application:
    [generate_mrp], [update_mrp_status] and the helper
    [calculate_working_days], over the tables declared in src/models.py.

    Modelling conventions.
    - A Python [float] and a [db.Float] column are IEEE 754 binary64
      numbers, the primitive [float] of the prover: sums, differences,
      products and quotients are rounded to nearest, ties to even, as in the
      code, and comparisons are those of IEEE 754.  A Python [int] and a
      [db.Integer] column are [Z].  [float(n)] and the implicit conversion
      of an [int] operand round to nearest; [a / b] on two [int]s is the
      correctly rounded quotient; [math.ceil] raises at an infinity or a
      NaN.  SQLite reads a NaN back as NULL, which is outside the types.
    - A naive [datetime] is its number of microseconds since the epoch and a
      [timedelta] is a number of microseconds; [timedelta.days] is the floor
      of the quotient by the length of a day, as Python normalises it.
    - [datetime.utcnow()] is a read of a clock: the k-th read made while a
      request is served returns [clock k].
    - [db.session] is a working copy of the stored database.  Changes made
      through it become durable at [db.session.commit()]; when a handler
      returns, aborts or raises without committing, the scoped session is
      removed and the pending changes are dropped.
    - Columns that the modelled routes never read (names, codes, suppliers,
      [created_at], [updated_at], ...) are left out of the records.  The
      authentication decorators are outside the model: the handlers below are
      the decorated function bodies. *)

From Stdlib Require Import ZArith QArith List String DecimalString Floats.
From stdpp Require Import gmap list fin_maps.

Local Open Scope Z_scope.

(** Decimal literals stand for the nearest float, as in Python. *)
#[local] Set Warnings "-inexact-float".

(** ** Numbers, dates and strings *)

(** The exceptions that the modelled arithmetic raises. *)
Inductive Exception := ZeroDivisionError | OverflowError | ValueError.

#[global] Instance Exception_ret : MRet (sum Exception) := fun A x => inr x.
#[global] Instance Exception_bind : MBind (sum Exception) :=
  fun A B f m => match m with inl e => inl e | inr x => f x end.

(** [float(n)] for an [int], also the conversion of an [int] operand of a
    mixed operation: the nearest float, ties to even. *)
Definition float_of_int (n : Z) : float :=
  SF2Prim (binary_normalize prec emax n 0 false).

(** An [int] as an unrounded binary number. *)
Definition int_spec (n : Z) : spec_float :=
  match n with
  | Z0 => S754_zero false
  | Zpos p => S754_finite false p 0
  | Zneg p => S754_finite true p 0
  end.

(** [a / b] for two [int]s: the float nearest to the quotient; a zero
    divisor and a quotient beyond the floats raise. *)
Definition true_div (a b : Z) : Exception + spec_float :=
  if b =? 0 then inl ZeroDivisionError
  else
    match SFdiv prec emax (int_spec a) (int_spec b) with
    | S754_infinity _ => inl OverflowError
    | q => inr q
    end.

(** [math.ceil(x)] for a float, an [int]. *)
Definition ceil (x : spec_float) : Exception + Z :=
  match x with
  | S754_zero _ => inr 0
  | S754_finite s m e =>
      let n := if s then Zneg m else Zpos m in
      inr (if 0 <=? e then n * 2 ^ e else - (- n / 2 ^ (- e)))
  | S754_infinity _ => inl OverflowError
  | S754_nan => inl ValueError
  end.

(** [math.ceil(a / b)] for two [int]s. *)
Definition ceil_div (a b : Z) : Exception + Z :=
  q ← true_div a b; ceil q.

(** Python's [max(0, x)]: the second argument is returned only when it is
    strictly greater than the first. *)
Definition max0 (x : float) : float := if (0 <? x)%float then x else 0%float.

(** [str(n)] for an [int]. *)
Definition str (n : Z) : string := NilZero.string_of_int (Z.to_int n).

Definition datetime := Z.
Definition timedelta := Z.

Definition us_per_day : Z := 86400000000.

(** [timedelta(days=n)] *)
Definition timedelta_days (n : Z) : timedelta := n * us_per_day.

(** [td.days] *)
Definition days (td : timedelta) : Z := td / us_per_day.

(** ** The tables of src/models.py *)

Module Component.
Record t := mk {
    id : Z;
    current_inventory : float;
    min_stock_level : float;
    max_stock_level : float;
    lead_time_days : Z;
    unit_cost : float;
    minimum_order_quantity : float
  }.
Definition set_current_inventory (c : t) (q : float) : t :=
  mk (id c) q (min_stock_level c) (max_stock_level c) (lead_time_days c)
     (unit_cost c) (minimum_order_quantity c).
End Component.

Module HornType.
Record t := mk { id : Z }.
End HornType.

Module HornTypeComponent.
Record t := mk {
    id : Z;
    horn_type_id : Z;
    component_id : Z;
    quantity_per_horn : float
  }.
End HornTypeComponent.

Module Order.
Record t := mk {
    id : Z;
    order_date : option datetime;
    deadline : datetime
  }.
End Order.

Module OrderLineItem.
Record t := mk {
    id : Z;
    order_id : Z;
    horn_type_id : Z;
    quantity : Z
  }.
End OrderLineItem.

Module ProductionConfig.
Record t := mk {
    id : Z;
    daily_production_capacity : Z;
    working_days_per_week : Z;
    max_inventory_days : Z;
    safety_stock_days : Z
  }.
End ProductionConfig.

Module MRPPlan.
Record t := mk {
    id : Z;
    order_id : Z;
    component_id : Z;
    total_required : float;
    current_inventory : float;
    net_requirement : float;
    order_quantity : float;
    order_date : datetime;
    expected_delivery : datetime;
    estimated_cost : float;
    status : string
  }.
Definition set_id (p : t) (i : Z) : t :=
  mk i (order_id p) (component_id p) (total_required p)
     (current_inventory p) (net_requirement p) (order_quantity p)
     (order_date p) (expected_delivery p) (estimated_cost p) (status p).
Definition set_status (p : t) (s : string) : t :=
  mk (id p) (order_id p) (component_id p) (total_required p)
     (current_inventory p) (net_requirement p) (order_quantity p)
     (order_date p) (expected_delivery p) (estimated_cost p) s.
End MRPPlan.

Module InventoryTransaction.
Record t := mk {
    id : Z;
    component_id : Z;
    transaction_type : string;
    quantity : float;
    balance_after : float;
    reference : string;
    notes : string
  }.
Definition set_id (x : t) (i : Z) : t :=
  mk i (component_id x) (transaction_type x) (quantity x)
     (balance_after x) (reference x) (notes x).
End InventoryTransaction.

Record Db := mkDb {
  components : list Component.t;
  horn_types : list HornType.t;
  horn_type_components : list HornTypeComponent.t;
  orders : list Order.t;
  order_line_items : list OrderLineItem.t;
  production_config : list ProductionConfig.t;
  mrp_plans : list MRPPlan.t;
  inventory_transactions : list InventoryTransaction.t
}.

Definition with_components (d : Db) (l : list Component.t) : Db :=
  mkDb l (horn_types d) (horn_type_components d) (orders d)
     (order_line_items d) (production_config d) (mrp_plans d)
     (inventory_transactions d).

Definition with_mrp_plans (d : Db) (l : list MRPPlan.t) : Db :=
  mkDb (components d) (horn_types d) (horn_type_components d) (orders d)
     (order_line_items d) (production_config d) l
     (inventory_transactions d).

Definition with_inventory_transactions
    (d : Db) (l : list InventoryTransaction.t) : Db :=
  mkDb (components d) (horn_types d) (horn_type_components d) (orders d)
     (order_line_items d) (production_config d) (mrp_plans d) l.

(** [Model.query.get(k)]: the row whose primary key is [k]. *)
Definition query_get {A : Type} (pk : A -> Z) (tbl : list A) (k : Z)
    : option A :=
  List.find (fun r => pk r =? k) tbl.

(** The primary key given to a row inserted in [tbl]. *)
Definition fresh_id {A : Type} (pk : A -> Z) (tbl : list A) : Z :=
  1 + fold_right Z.max 0 (List.map pk tbl).

(** Relationships ([db.relationship]) are queries on the foreign key. *)
Definition line_items (d : Db) (o : Order.t) : list OrderLineItem.t :=
  List.filter (fun li => OrderLineItem.order_id li =? Order.id o)
              (order_line_items d).

Definition horn_type (d : Db) (li : OrderLineItem.t) : option HornType.t :=
  query_get HornType.id (horn_types d) (OrderLineItem.horn_type_id li).

Definition bom_components (d : Db) (h : HornType.t)
    : list HornTypeComponent.t :=
  List.filter (fun b => HornTypeComponent.horn_type_id b =? HornType.id h)
              (horn_type_components d).

(** [Order.total_quantity] *)
Definition total_quantity (d : Db) (o : Order.t) : Z :=
  fold_right Z.add 0 (List.map OrderLineItem.quantity (line_items d o)).

(** ** Requests: session, commit and clock *)

Record World := mkWorld {
  session : Db;          (* what the handler sees through db.session *)
  stored : Db;           (* what is durable *)
  reads : nat;           (* number of clock reads made so far *)
  clock : nat -> datetime
}.

Definition M (A : Type) : Type := World -> A * World.

#[global] Instance M_ret : MRet M := fun A x w => (x, w).
#[global] Instance M_bind : MBind M :=
  fun A B f m w => let (x, w') := m w in f x w'.

Definition utcnow : M datetime :=
  fun w => (clock w (reads w),
            mkWorld (session w) (stored w) (S (reads w)) (clock w)).

Definition read_db : M Db := fun w => (session w, w).

Definition write_db (d : Db) : M unit :=
  fun w => (tt, mkWorld d (stored w) (reads w) (clock w)).

(** [db.session.commit()] *)
Definition commit : M unit :=
  fun w => (tt, mkWorld (session w) (session w) (reads w) (clock w)).

(** Serving one request: the session starts from the stored database and is
    removed when the handler is done; only what was committed remains. *)
Definition run_request {A : Type} (h : M A) (clk : nat -> datetime) (d : Db)
    : A * Db :=
  let (r, w) := h (mkWorld d d 0%nat clk) in (r, stored w).

(** ** Responses *)

(** The summary of the answer of [generate_mrp].  Its entry
    [total_estimated_cost] is the interpreter's [sum] over the costs of
    the plans, whose rounding is not the same in every version of Python
    (it is compensated from 3.12 on); it is left out of the record. *)
Record Summary := mkSummary {
  summary_order_quantity : Z;
  summary_working_days : Z;
  summary_daily_production : Z;
  summary_production_start : datetime;
  summary_total_components : nat;
  summary_components_to_order : nat
}.

Inductive Response :=
| MrpGenerated (summary : Summary) (plans : list MRPPlan.t)
| PlanJson (plan : MRPPlan.t)
| BadRequest (error : string)
| CapacityWarning (warning : string) (required_days available_days : Z)
| NotFound
| Raised (e : Exception).


(** ** calculate_working_days (src/app.py, 832-839) *)

Definition calculate_working_days
    (start_date end_date : datetime) (working_days_per_week : Z) : Z :=
  let total_days := days (end_date - start_date) in
  let weeks := total_days / 7 in
  let remaining_days := total_days mod 7 in
  let working_days := weeks * working_days_per_week in
  let working_days :=
    working_days + Z.min remaining_days working_days_per_week in
  working_days.

(** ** generate_mrp (src/app.py, 611-718) *)

(** [component_requirements[k] += q] on a [defaultdict(float)] *)
Definition add_requirement (reqs : gmap Z float) (k : Z) (q : float)
    : gmap Z float :=
  <[k := (default 0 (reqs !! k) + q)%float]> reqs.

(** The inner loop over [horn_type.bom_components] (625-628). *)
Definition explode_bom (li : OrderLineItem.t)
    (bom : list HornTypeComponent.t) (reqs : gmap Z float) : gmap Z float :=
  fold_left
    (fun acc bom_item =>
       add_requirement acc (HornTypeComponent.component_id bom_item)
         (float_of_int (OrderLineItem.quantity li)
          * HornTypeComponent.quantity_per_horn bom_item)%float)
    bom reqs.

(** The body of the outer loop (622-628): a line item without a horn type
    is skipped. *)
Definition explode_line_item (d : Db) (reqs : gmap Z float)
    (line_item : OrderLineItem.t) : gmap Z float :=
  match horn_type d line_item with
  | None => reqs
  | Some h => explode_bom line_item (bom_components d h) reqs
  end.

(** The loop over [order.line_items], from an empty dictionary (619-628). *)
Definition explode_order (d : Db) (o : Order.t) : gmap Z float :=
  fold_left (explode_line_item d) (line_items d o) ∅.

(** Lines 661-669: net requirement and rounding to the MOQ. *)
Definition net_requirement (total_required : float) (component : Component.t)
    : float :=
  max0 (total_required - Component.current_inventory component)%float.

(** The divisor of line 665 is greater than 0; [math.ceil] raises when the
    quotient is an infinity or a NaN. *)
Definition moq_quantity (net : float) (component : Component.t)
    : Exception + float :=
  if (0 <? net)%float then
    if (0 <? Component.minimum_order_quantity component)%float then
      lots ←
        ceil (Prim2SF (net / Component.minimum_order_quantity component));
      mret (float_of_int lots
            * Component.minimum_order_quantity component)%float
    else mret net
  else mret 0%float.

(** Lines 671-674: the cap at the maximum stock level. *)
Definition max_stock_cap (component : Component.t) (order_quantity : float)
    : float :=
  if (0 <? Component.max_stock_level component)%float then
    let max_order :=
      (Component.max_stock_level component
       - Component.current_inventory component)%float in
    if (max_order <? order_quantity)%float then max_order
    else order_quantity
  else order_quantity.

(** [db.session.add(row)]; the key is the one the row gets when flushed. *)
Definition add_mrp_plan (p : MRPPlan.t) : M MRPPlan.t :=
  d ← read_db;
  let p' := MRPPlan.set_id p (fresh_id MRPPlan.id (mrp_plans d)) in
  _ ← write_db (with_mrp_plans d (mrp_plans d ++ [p']));
  mret p'.

(** The body of the loop over [components] (659-699); it raises before it
    reads the clock or adds the plan. *)
Definition plan_component (order_id : Z) (config : ProductionConfig.t)
    (production_start : datetime) (component_requirements : gmap Z float)
    (component : Component.t) : M (Exception + MRPPlan.t) :=
  let total_required :=
    default 0%float (component_requirements !! Component.id component) in
  let net := net_requirement total_required component in
  match moq_quantity net component with
  | inl e => mret (inl e)
  | inr order_quantity =>
  let order_quantity := max_stock_cap component order_quantity in
  let days_before_production :=
    Component.lead_time_days component
    + ProductionConfig.safety_stock_days config in
  let order_date_calculated :=
    production_start - timedelta_days days_before_production in
  now ← utcnow;
  order_date_calculated ←
    (if order_date_calculated <? now then utcnow
     else mret order_date_calculated);
  let expected_delivery :=
    order_date_calculated
    + timedelta_days (Component.lead_time_days component) in
  let estimated_cost :=
    (order_quantity * Component.unit_cost component)%float in
  mrp_plan ←
    add_mrp_plan
      (MRPPlan.mk 0 order_id (Component.id component) total_required
         (Component.current_inventory component) net order_quantity
         order_date_calculated expected_delivery estimated_cost "planned");
  mret (inr mrp_plan)
  end.

Fixpoint plan_components (order_id : Z) (config : ProductionConfig.t)
    (production_start : datetime) (component_requirements : gmap Z float)
    (components : list Component.t) : M (Exception + list MRPPlan.t) :=
  match components with
  | [] => mret (inr [])
  | component :: rest =>
      r ←
        plan_component order_id config production_start
          component_requirements component;
      match r with
      | inl e => mret (inl e)
      | inr mrp_plan =>
          rs ←
            plan_components order_id config production_start
              component_requirements rest;
          match rs with
          | inl e => mret (inl e)
          | inr mrp_plans => mret (inr (mrp_plan :: mrp_plans))
          end
      end
  end.

Definition capacity_warning (daily_production capacity : Z) : string :=
  ("Required daily production (" ++ str daily_production
   ++ ") exceeds capacity (" ++ str capacity ++ ")")%string.

Definition generate_mrp (order_id : Z) : M Response :=
  d ← read_db;
  match query_get Order.id (orders d) order_id with
  | None => mret NotFound
  | Some order =>
  match production_config d with
  | [] => mret (BadRequest "Production configuration not set")
  | config :: _ =>
  let component_requirements := explode_order d order in
  if (size component_requirements =? 0)%nat then
    mret (BadRequest
      "Order has no horn types with components. Add components to horn types first.")
  else
  let component_ids := elements (dom component_requirements) in
  let components :=
    List.filter
      (fun c => bool_decide (Component.id c ∈ component_ids))
      (components d) in
  _ ← write_db
        (with_mrp_plans d
           (List.filter
              (fun p => negb (MRPPlan.order_id p =? order_id))
              (mrp_plans d)));
  order_date ←
    match Order.order_date order with
    | Some t => mret t
    | None => utcnow
    end;
  let deadline := Order.deadline order in
  let total_quantity := total_quantity d order in
  let working_days :=
    calculate_working_days order_date deadline
      (ProductionConfig.working_days_per_week config) in
  if working_days <=? 0 then
    mret (BadRequest "Invalid deadline - not enough working days")
  else
  match ceil_div total_quantity working_days with
  | inl e => mret (Raised e)
  | inr daily_production =>
  if ProductionConfig.daily_production_capacity config <? daily_production
  then
    match
      ceil_div total_quantity
        (ProductionConfig.daily_production_capacity config)
    with
    | inl e => mret (Raised e)
    | inr required_days =>
        mret (CapacityWarning
          (capacity_warning daily_production
             (ProductionConfig.daily_production_capacity config))
          required_days working_days)
    end
  else
  let production_start :=
    order_date
    + timedelta_days (ProductionConfig.safety_stock_days config) in
  r ←
    plan_components order_id config production_start
      component_requirements components;
  match r with
  | inl e => mret (Raised e)
  | inr mrp_plans =>
  _ ← commit;
  let components_to_order :=
    length
      (List.filter (fun p => (0 <? MRPPlan.order_quantity p)%float)
         mrp_plans) in
  mret (MrpGenerated
    (mkSummary total_quantity working_days daily_production
       production_start (length components) components_to_order)
    mrp_plans)
  end end end end.

(** ** update_mrp_status (src/app.py, 734-757) *)

(** Assigning to an attribute of a loaded row: the row with that primary key
    is rewritten when the session is flushed. *)
Definition save_row {A : Type} (pk : A -> Z) (row : A) (tbl : list A)
    : list A :=
  List.map (fun r => if pk r =? pk row then row else r) tbl.

Definition add_inventory_transaction (x : InventoryTransaction.t) : M unit :=
  d ← read_db;
  let x' :=
    InventoryTransaction.set_id x
      (fresh_id InventoryTransaction.id (inventory_transactions d)) in
  write_db
    (with_inventory_transactions d (inventory_transactions d ++ [x'])).

(** [data_status] is the ['status'] entry of the JSON body, [None] when the
    body has no such entry. *)
Definition update_mrp_status (plan_id : Z) (data_status : option string)
    : M Response :=
  d ← read_db;
  match query_get MRPPlan.id (mrp_plans d) plan_id with
  | None => mret NotFound
  | Some plan =>
  let plan :=
    MRPPlan.set_status plan (default (MRPPlan.status plan) data_status) in
  _ ← write_db (with_mrp_plans d (save_row MRPPlan.id plan (mrp_plans d)));
  _ ←
    (if String.eqb (MRPPlan.status plan) "received" then
       d ← read_db;
       match
         query_get Component.id (components d) (MRPPlan.component_id plan)
       with
       | Some component =>
           let component :=
             Component.set_current_inventory component
               (Component.current_inventory component
                + MRPPlan.order_quantity plan)%float in
           _ ← write_db
                 (with_components d
                    (save_row Component.id component (components d)));
           add_inventory_transaction
             (InventoryTransaction.mk 0 (Component.id component) "receipt"
                (MRPPlan.order_quantity plan)
                (Component.current_inventory component)
                ("MRP-" ++ str (MRPPlan.id plan))%string
                ("Received order for Order #"
                 ++ str (MRPPlan.order_id plan))%string)
       | None => mret tt
       end
     else mret tt);
  _ ← commit;
  mret (PlanJson plan)
  end.

(** * The other routes of src/app.py over these tables *)

Definition with_production_config (d : Db) (l : list ProductionConfig.t)
    : Db :=
  mkDb (components d) (horn_types d) (horn_type_components d) (orders d)
     (order_line_items d) l (mrp_plans d) (inventory_transactions d).

Definition with_horn_type_components (d : Db)
    (l : list HornTypeComponent.t) : Db :=
  mkDb (components d) (horn_types d) l (orders d) (order_line_items d)
     (production_config d) (mrp_plans d) (inventory_transactions d).

(** [db.session.delete(row)]: the row with that primary key goes. *)
Definition delete_row {A : Type} (pk : A -> Z) (row : A) (tbl : list A)
    : list A :=
  List.filter (fun r => negb (pk r =? pk row)) tbl.

(** ** get_mrp_plans (src/app.py, 727-730) *)

Definition get_mrp_plans (order_id : Z) : M (list MRPPlan.t) :=
  d ← read_db;
  mret (List.filter (fun p => MRPPlan.order_id p =? order_id) (mrp_plans d)).

(** ** adjust_inventory (src/app.py, 777-800) *)

(** The JSON body: an entry is [None] when the body lacks the key;
    [adjust_quantity] is [float(data['quantity'])]. *)
Record AdjustData := mkAdjustData {
  adjust_component_id : option Z;
  adjust_quantity : option float;
  adjust_reference : option string;
  adjust_notes : option string
}.

Inductive AdjustResponse :=
| Adjusted (component : Component.t) (transaction : InventoryTransaction.t)
| AdjustNotFound
| AdjustKeyError.

Definition adjust_inventory (data : AdjustData) : M AdjustResponse :=
  match adjust_component_id data with
  | None => mret AdjustKeyError
  | Some component_id =>
  d ← read_db;
  match query_get Component.id (components d) component_id with
  | None => mret AdjustNotFound
  | Some component =>
  match adjust_quantity data with
  | None => mret AdjustKeyError
  | Some adjustment =>
  let component :=
    Component.set_current_inventory component
      (Component.current_inventory component + adjustment)%float in
  _ ← write_db
        (with_components d (save_row Component.id component (components d)));
  d ← read_db;
  let transaction :=
    InventoryTransaction.mk
      (fresh_id InventoryTransaction.id (inventory_transactions d))
      (Component.id component) "adjustment" adjustment
      (Component.current_inventory component)
      (default ""%string (adjust_reference data))
      (default ""%string (adjust_notes data)) in
  _ ← write_db
        (with_inventory_transactions d
           (inventory_transactions d ++ [transaction]));
  _ ← commit;
  mret (Adjusted component transaction)
  end end end.

(** ** get_production_config (src/app.py, 572-585) *)

Definition add_production_config (c : ProductionConfig.t)
    : M ProductionConfig.t :=
  d ← read_db;
  let c' :=
    ProductionConfig.mk
      (fresh_id ProductionConfig.id (production_config d))
      (ProductionConfig.daily_production_capacity c)
      (ProductionConfig.working_days_per_week c)
      (ProductionConfig.max_inventory_days c)
      (ProductionConfig.safety_stock_days c) in
  _ ← write_db (with_production_config d (production_config d ++ [c']));
  mret c'.

Definition get_production_config : M ProductionConfig.t :=
  d ← read_db;
  match production_config d with
  | config :: _ => mret config
  | [] =>
      config ← add_production_config (ProductionConfig.mk 0 4000 6 30 3);
      _ ← commit;
      mret config
  end.

(** ** update_production_config (src/app.py, 589-604) *)






(** ** delete_order (src/app.py, 557-566) *)

Inductive DeleteResponse :=
| Deleted (message : string)
| DeleteNotFound.

(** The relationships [line_items] and [mrp_plans] of [Order] cascade the
    deletion (src/models.py, 187-188).  The audit log is a table outside
    the model. *)
Definition delete_order (order_id : Z) : M DeleteResponse :=
  d ← read_db;
  match query_get Order.id (orders d) order_id with
  | None => mret DeleteNotFound
  | Some order =>
      _ ← write_db
            (mkDb (components d) (horn_types d) (horn_type_components d)
               (delete_row Order.id order (orders d))
               (List.filter
                  (fun li => negb (OrderLineItem.order_id li =? Order.id order))
                  (order_line_items d))
               (production_config d)
               (List.filter
                  (fun p => negb (MRPPlan.order_id p =? Order.id order))
                  (mrp_plans d))
               (inventory_transactions d));
      _ ← commit;
      mret (Deleted "Order deleted successfully")
  end.

(** ** The BOM routes (src/app.py, 416-467) *)

(** The JSON body of a BOM request; [bom_quantity_per_horn] is
    [float(data['quantity_per_horn'])]. *)
Record BomData := mkBomData {
  bom_component_id : option Z;
  bom_quantity_per_horn : option float
}.

Inductive BomResponse :=
| BomJson (status_code : Z) (bom_item : HornTypeComponent.t)
| BomMessage (message : string)
| BomBadRequest (error : string)
| BomNotFound
| BomKeyError.

(** [HornTypeComponent.query.filter_by(horn_type_id=..., component_id=...)
    .first()] *)
Definition find_bom_item (d : Db) (horn_type_id component_id : Z)
    : option HornTypeComponent.t :=
  List.find
    (fun b =>
       (HornTypeComponent.horn_type_id b =? horn_type_id)
       && (HornTypeComponent.component_id b =? component_id))
    (horn_type_components d).

Definition add_component_to_horn_type (horn_type_id : Z) (data : BomData)
    : M BomResponse :=
  d ← read_db;
  match query_get HornType.id (horn_types d) horn_type_id with
  | None => mret BomNotFound
  | Some horn_type =>
  match bom_component_id data with
  | None => mret BomKeyError
  | Some component_id =>
  match find_bom_item d horn_type_id component_id with
  | Some existing =>
      mret (BomBadRequest "Component already in this horn type BOM")
  | None =>
  match bom_quantity_per_horn data with
  | None => mret BomKeyError
  | Some quantity_per_horn =>
  let bom_item :=
    HornTypeComponent.mk
      (fresh_id HornTypeComponent.id (horn_type_components d))
      horn_type_id component_id quantity_per_horn in
  _ ← write_db
        (with_horn_type_components d (horn_type_components d ++ [bom_item]));
  _ ← commit;
  mret (BomJson 201 bom_item)
  end end end end.


Definition remove_component_from_horn_type (horn_type_id component_id : Z)
    : M BomResponse :=
  d ← read_db;
  match find_bom_item d horn_type_id component_id with
  | None => mret BomNotFound
  | Some bom_item =>
      _ ← write_db
            (with_horn_type_components d
               (delete_row HornTypeComponent.id bom_item
                  (horn_type_components d)));
      _ ← commit;
      mret (BomMessage "Component removed from horn type")
  end.

(** * Specification-side definitions and example databases *)

(** The formula of the specification: the whole days between the two dates,
    truncated, split in full weeks and a remainder. *)
Definition whole_days_between (start_date end_date : datetime) : Z :=
  Z.quot (end_date - start_date) us_per_day.

Definition working_days_formula
    (start_date end_date : datetime) (W : Z) : Z :=
  let total_days := whole_days_between start_date end_date in
  let full_weeks := total_days / 7 in
  let remainder := total_days mod 7 in
  full_weeks * W + Z.min remainder W.

(** The exact value of a finite float, a rational. *)
Definition exact (x : float) : option Q :=
  match Prim2SF x with
  | S754_zero _ => Some 0%Q
  | S754_finite s m e =>
      Some (inject_Z (if s then Zneg m else Zpos m) * Qpower 2 e)%Q
  | _ => None
  end.

(** The least integer [n] with [a <= n * b], for [b > 0]. *)
Definition exact_ceil_div (a b : Z) : Z := - (- a / b).

(** The sum of floats as the code accumulates it: from 0.0, one float
    addition per term, in the order of the list. *)
Definition float_sum (l : list float) : float :=
  fold_left PrimFloat.add l 0%float.

(** The aggregate requirement as the specification words it, in the
    arithmetic of the code: the products of the quantity of a line item and
    the quantity per unit of component [cid] in the BOM of the line item's
    product type, over the line items in their order, and their sum. *)
Definition contribution (li : OrderLineItem.t) (b : HornTypeComponent.t)
    : float :=
  (float_of_int (OrderLineItem.quantity li)
   * HornTypeComponent.quantity_per_horn b)%float.

Definition contributions_of (d : Db) (cid : Z) (li : OrderLineItem.t)
    : list float :=
  match horn_type d li with
  | None => []
  | Some h =>
      List.map (contribution li)
        (List.filter (fun b => HornTypeComponent.component_id b =? cid)
           (bom_components d h))
  end.

Definition contributions (d : Db) (o : Order.t) (cid : Z) : list float :=
  flat_map (contributions_of d cid) (line_items d o).

Definition aggregate_requirement (d : Db) (o : Order.t) (cid : Z) : float :=
  float_sum (contributions d o cid).

(** An entry of the dictionary after the terms [l] were added to it, one
    after the other; without a term the entry is as it was. *)
Definition accumulate (entry : option float) (l : list float)
    : option float :=
  match l with
  | [] => entry
  | _ => Some (fold_left PrimFloat.add l (default 0%float entry))
  end.

(** Component [cid] occurs in the BOM of the product type of line item
    [li]. *)
Definition in_bom_of (d : Db) (li : OrderLineItem.t) (cid : Z) : Prop :=
  exists h b,
    horn_type d li = Some h /\ In b (bom_components d h)
    /\ HornTypeComponent.component_id b = cid.

Definition referenced (d : Db) (o : Order.t) (cid : Z) : Prop :=
  exists li, In li (line_items d o) /\ in_bom_of d li cid.

(** 100 units of type A (2 X per unit) and 50 of type B (1 X per unit). *)
Definition bom_example : Db :=
  mkDb [Component.mk 1 0 0 0 7 1 0]
       [HornType.mk 1; HornType.mk 2]
       [HornTypeComponent.mk 1 1 1 2; HornTypeComponent.mk 2 2 1 1]
       [Order.mk 1 (Some 0) (timedelta_days 30)]
       [OrderLineItem.mk 1 1 1 100; OrderLineItem.mk 2 1 2 50]
       [ProductionConfig.mk 1 4000 6 30 3]
       [] [].

(** 3 units of a type that needs 0.1 X per unit. *)
Definition fraction_example : Db :=
  mkDb [Component.mk 1 0 0 0 7 1 0]
       [HornType.mk 1]
       [HornTypeComponent.mk 1 1 1 0.1]
       [Order.mk 1 (Some 0) (timedelta_days 30)]
       [OrderLineItem.mk 1 1 1 3]
       [ProductionConfig.mk 1 4000 6 30 3]
       [] [].

(** The order date the loop body stores when [k] clock reads were made
    before it: the computed date, or a fresh read of the clock when the
    computed date is before the current instant. *)
Definition order_date_at (clk : nat -> datetime) (k : nat)
    (calculated : datetime) : datetime :=
  if calculated <? clk k then clk (S k) else calculated.

(** The plan the loop body builds for a component. *)
Record plan_of (order_id : Z) (config : ProductionConfig.t)
    (production_start : datetime) (reqs : gmap Z float) (clk : nat -> datetime)
    (c : Component.t) (p : MRPPlan.t) : Prop := mk_plan_of {
  plan_order_id : MRPPlan.order_id p = order_id;
  plan_component_id : MRPPlan.component_id p = Component.id c;
  plan_total_required :
    MRPPlan.total_required p = default 0%float (reqs !! Component.id c);
  plan_current_inventory :
    MRPPlan.current_inventory p = Component.current_inventory c;
  plan_net_requirement :
    MRPPlan.net_requirement p
    = net_requirement (MRPPlan.total_required p) c;
  plan_order_quantity :
    exists q,
      moq_quantity (MRPPlan.net_requirement p) c = inr q
      /\ MRPPlan.order_quantity p = max_stock_cap c q;
  plan_order_date :
    exists k,
      MRPPlan.order_date p
      = order_date_at clk k
          (production_start
           - timedelta_days
               (Component.lead_time_days c
                + ProductionConfig.safety_stock_days config));
  plan_expected_delivery :
    MRPPlan.expected_delivery p
    = MRPPlan.order_date p + timedelta_days (Component.lead_time_days c);
  plan_estimated_cost :
    MRPPlan.estimated_cost p
    = (MRPPlan.order_quantity p * Component.unit_cost c)%float;
  plan_status : MRPPlan.status p = "planned"%string
}.

Ltac run_monad :=
  unfold mbind, M_bind, mret, M_ret, utcnow, read_db, write_db, commit;
  cbn [fst snd session stored reads clock].

(** [order.order_date or datetime.utcnow()], the first clock read of the
    request when the column is empty. *)
Definition order_date_of (clk : nat -> datetime) (o : Order.t) : datetime :=
  match Order.order_date o with
  | Some t => t
  | None => clk 0%nat
  end.

Definition planned_components (d : Db) (reqs : gmap Z float)
    : list Component.t :=
  List.filter
    (fun c => bool_decide (Component.id c ∈ elements (dom reqs)))
    (components d).

Definition other_orders_plans (d : Db) (order_id : Z) : list MRPPlan.t :=
  List.filter (fun p => negb (MRPPlan.order_id p =? order_id)) (mrp_plans d).

Definition required_daily (d : Db) (o : Order.t) (working_days : Z)
    : Exception + Z :=
  ceil_div (total_quantity d o) working_days.

Definition is_generated (r : Response) : bool :=
  match r with
  | MrpGenerated _ _ => true
  | _ => false
  end.

(** An order whose only line item is of a product type without BOM entries,
    with a plan left from an earlier generation. *)
Definition empty_bom_example : Db :=
  mkDb [Component.mk 1 0 0 0 7 1 0]
       [HornType.mk 1]
       []
       [Order.mk 1 (Some 0) (timedelta_days 30)]
       [OrderLineItem.mk 1 1 1 100]
       [ProductionConfig.mk 1 4000 6 30 3]
       [MRPPlan.mk 1 1 1 200 0 200 200 0 (timedelta_days 7) 200 "planned"]
       [].

(** An order whose deadline is before its order date, with a plan left from
    an earlier generation: the handler fails after the session has dropped
    that plan. *)
Definition late_example : Db :=
  mkDb [Component.mk 1 0 0 0 7 1 0]
       [HornType.mk 1]
       [HornTypeComponent.mk 1 1 1 2]
       [Order.mk 1 (Some (timedelta_days 30)) (timedelta_days 20)]
       [OrderLineItem.mk 1 1 1 100]
       [ProductionConfig.mk 1 4000 6 30 3]
       [MRPPlan.mk 1 1 1 200 0 200 200 0 (timedelta_days 7) 200 "planned"]
       [].

(** 200,000 units, 58 days at 6 working days a week (50 working days), and
    a capacity of 3,000 a day. *)
Definition capacity_example : Db :=
  mkDb [Component.mk 1 0 0 0 7 1 0]
       [HornType.mk 1]
       [HornTypeComponent.mk 1 1 1 2]
       [Order.mk 1 (Some 0) (timedelta_days 58)]
       [OrderLineItem.mk 1 1 1 200000]
       [ProductionConfig.mk 1 3000 6 30 3]
       [MRPPlan.mk 1 1 1 200 0 200 200 0 (timedelta_days 7) 200 "planned"]
       [].

(** 2^53 + 1 units, one day at 6 working days a week (one working day),
    and a capacity of 2^53 a day. *)
Definition rounding_example : Db :=
  mkDb [Component.mk 1 0 0 0 7 1 0]
       [HornType.mk 1]
       [HornTypeComponent.mk 1 1 1 2]
       [Order.mk 1 (Some 0) (timedelta_days 1)]
       [OrderLineItem.mk 1 1 1 9007199254740993]
       [ProductionConfig.mk 1 9007199254740992 6 30 3]
       [] [].

(** An order placed on day 100 with a buffer of 3 days; component 1 has a
    lead time of 7 days and component 2 of 60 days. *)
Definition schedule_example : Db :=
  mkDb [Component.mk 1 0 0 0 7 1 0; Component.mk 2 0 0 0 60 1 0]
       [HornType.mk 1]
       [HornTypeComponent.mk 1 1 1 2; HornTypeComponent.mk 2 1 2 1]
       [Order.mk 1 (Some (timedelta_days 100)) (timedelta_days 130)]
       [OrderLineItem.mk 1 1 1 100]
       [ProductionConfig.mk 1 4000 6 30 3]
       [] [].

(** Stock of 150 above a maximum stock level of 100, and a demand of 200. *)
Definition overstock_example : Db :=
  mkDb [Component.mk 1 150 0 100 7 1 0]
       [HornType.mk 1]
       [HornTypeComponent.mk 1 1 1 2]
       [Order.mk 1 (Some 0) (timedelta_days 30)]
       [OrderLineItem.mk 1 1 1 100]
       [ProductionConfig.mk 1 4000 6 30 3]
       [] [].

(** The same stock, and a demand of 10 that the stock covers. *)
Definition covered_example : Db :=
  mkDb [Component.mk 1 150 0 100 7 1 0]
       [HornType.mk 1]
       [HornTypeComponent.mk 1 1 1 2]
       [Order.mk 1 (Some 0) (timedelta_days 30)]
       [OrderLineItem.mk 1 1 1 5]
       [ProductionConfig.mk 1 4000 6 30 3]
       [] [].

(** A stock of 100, a maximum stock level of 250, a minimum order quantity
    of 100 and a demand of 250. *)
Definition moq_cap_example : Db :=
  mkDb [Component.mk 1 100 0 250 7 1 100]
       [HornType.mk 1]
       [HornTypeComponent.mk 1 1 1 2]
       [Order.mk 1 (Some 0) (timedelta_days 30)]
       [OrderLineItem.mk 1 1 1 125]
       [ProductionConfig.mk 1 4000 6 30 3]
       [] [].

(** A minimum order quantity of 100, no maximum stock level and a demand of
    250 against a stock of 100. *)
Definition moq_example : Db :=
  mkDb [Component.mk 1 100 0 0 7 1 100]
       [HornType.mk 1]
       [HornTypeComponent.mk 1 1 1 2]
       [Order.mk 1 (Some 0) (timedelta_days 30)]
       [OrderLineItem.mk 1 1 1 125]
       [ProductionConfig.mk 1 4000 6 30 3]
       [] [].

(** The transaction recorded for the receipt of [plan] into [component],
    whose inventory is already updated. *)
Definition receipt (d : Db) (plan : MRPPlan.t) (component : Component.t)
    : InventoryTransaction.t :=
  InventoryTransaction.mk
    (fresh_id InventoryTransaction.id (inventory_transactions d))
    (Component.id component) "receipt" (MRPPlan.order_quantity plan)
    (Component.current_inventory component)
    ("MRP-" ++ str (MRPPlan.id plan))%string
    ("Received order for Order #" ++ str (MRPPlan.order_id plan))%string.

(** A plan for 500 units, ordered, of a component with 120 in stock. *)
Definition receipt_example : Db :=
  mkDb [Component.mk 1 120 0 0 7 1 0]
       [HornType.mk 1]
       [HornTypeComponent.mk 1 1 1 2]
       [Order.mk 1 (Some 0) (timedelta_days 30)]
       [OrderLineItem.mk 1 1 1 310]
       [ProductionConfig.mk 1 4000 6 30 3]
       [MRPPlan.mk 1 1 1 620 120 500 500 0 (timedelta_days 7) 500 "ordered"]
       [].




(** The world with another stored database. *)
Definition with_stored (w : World) (st : Db) : World :=
  mkWorld (session w) st (reads w) (clock w).

(** The order of [bom_example] under a configured capacity of 0. *)
Definition zero_capacity_example : Db :=
  with_production_config bom_example [ProductionConfig.mk 1 0 6 30 3].

(** The balance after the latest transaction of a component. *)
Definition last_balance (txs : list InventoryTransaction.t) (cid : Z)
    : option float :=
  option_map InventoryTransaction.balance_after
    (List.find (fun x => InventoryTransaction.component_id x =? cid)
       (rev txs)).

(** The ledger agrees with the stock: the balance after the latest
    transaction of a component, when it has one, is its inventory. *)
Definition ledger_consistent (d : Db) : Prop :=
  forall c b,
    In c (components d) ->
    last_balance (inventory_transactions d) (Component.id c) = Some b ->
    b = Component.current_inventory c.

Definition is_adjusted (r : AdjustResponse) : bool :=
  match r with
  | Adjusted _ _ => true
  | _ => false
  end.

(** A component with 120 in stock and one receipt of 120 in the ledger. *)
Definition ledger_example : Db :=
  mkDb [Component.mk 1 120 0 0 7 1 0; Component.mk 2 40 0 0 7 1 0]
       [] [] [] [] []
       [MRPPlan.mk 1 1 1 620 120 500 500 0 (timedelta_days 7) 500 "ordered"]
       [InventoryTransaction.mk 1 1 "receipt" 120 120 "MRP-0" "first"].


(** Every product type has distinct components in its BOM. *)
Definition bom_distinct (d : Db) : Prop :=
  forall hid,
    List.NoDup
      (List.map HornTypeComponent.component_id
         (List.filter (fun b => HornTypeComponent.horn_type_id b =? hid)
            (horn_type_components d))).

(** Two product types: type 1 needs 2 of component 1 and 1 of component 2,
    type 2 has no BOM yet; order 1 asks for 100 of type 1 and 40 of
    type 2. *)
Definition schedule_example_two_types : Db :=
  mkDb [Component.mk 1 0 0 0 7 1 0; Component.mk 2 0 0 0 60 1 0]
       [HornType.mk 1; HornType.mk 2]
       [HornTypeComponent.mk 1 1 1 2; HornTypeComponent.mk 2 1 2 1]
       [Order.mk 1 (Some (timedelta_days 100)) (timedelta_days 130)]
       [OrderLineItem.mk 1 1 1 100; OrderLineItem.mk 2 1 2 40]
       [ProductionConfig.mk 1 4000 6 30 3]
       [] [].

(** * Properties *)

(** ** Comparisons and rounding *)

Lemma ltb_leb (x y : float) : (x <? y)%float = true -> (x <=? y)%float = true.
Proof.
  rewrite ltb_spec, leb_spec. unfold SFltb, SFleb.
  now destruct (SFcompare (Prim2SF x) (Prim2SF y)) as [[| |] |].
Qed.

Lemma max0_nonneg (x : float) : (0 <=? max0 x)%float = true.
Proof.
  unfold max0. destruct (0 <? x)%float eqn:E.
  - now apply ltb_leb.
  - reflexivity.
Qed.

Lemma max0_pos (x : float) : (0 <? max0 x)%float = true -> max0 x = x.
Proof.
  unfold max0. destruct (0 <? x)%float; [reflexivity | discriminate].
Qed.

(** A float greater than 0 is a positive number or the positive
    infinity. *)
Lemma positive_spec (x : float) :
  (0 <? x)%float = true ->
  Prim2SF x = S754_infinity false
  \/ exists m e, Prim2SF x = S754_finite false m e.
Proof.
  rewrite ltb_spec. unfold SFltb. change (Prim2SF 0) with (S754_zero false).
  destruct (Prim2SF x) as [s | [|] | | [|] m e]; cbn; try discriminate.
  - now left.
  - right. now exists m, e.
Qed.

(** Rounding keeps the sign: it gives a zero, a number or an infinity of
    the sign it is given, or a NaN. *)
Lemma binary_round_aux_sign (s : bool) (mx ex : Z) (lx : location) :
  match binary_round_aux prec emax s mx ex lx with
  | S754_zero s' | S754_infinity s' | S754_finite s' _ _ => s' = s
  | S754_nan => True
  end.
Proof.
  unfold binary_round_aux.
  destruct (shr_fexp prec emax mx ex lx) as [mrs' e'].
  destruct (shr_fexp prec emax _ e' loc_Exact) as [mrs'' e''].
  destruct (shr_m mrs'') as [| m | m]; [reflexivity | | exact I].
  now destruct (e'' <=? emax - prec).
Qed.

Lemma ceil_nonneg (x : spec_float) (k : Z) :
  match x with
  | S754_zero _ | S754_nan => True
  | S754_infinity s | S754_finite s _ _ => s = false
  end ->
  ceil x = inr k -> 0 <= k.
Proof.
  destruct x as [s | s | | s m e]; cbn; try discriminate.
  - intros _ [= <-]. lia.
  - intros -> [= <-].
    destruct (0 <=? e).
    + apply Z.mul_nonneg_nonneg; [lia |]. apply Z.pow_nonneg. lia.
    + assert (H : Z.neg m / 2 ^ (- e) <= 0); [| cbn [Z.opp]; lia].
      destruct e as [| e | e]; cbn [Z.opp].
      * rewrite Z.div_1_r. lia.
      * rewrite Z.pow_neg_r by lia. rewrite Z.div_0_r. lia.
      * apply Z.div_le_upper_bound; [now apply Z.pow_pos_nonneg | lia].
Qed.

(** The whole number of lots of line 665 is not negative. *)
Lemma ceil_quotient_nonneg (x y : float) (k : Z) :
  (0 <? x)%float = true -> (0 <? y)%float = true ->
  ceil (Prim2SF (x / y)) = inr k -> 0 <= k.
Proof.
  intros Hx Hy. apply ceil_nonneg. rewrite div_spec.
  destruct (positive_spec x Hx) as [-> | (mx & ex & ->)];
    destruct (positive_spec y Hy) as [-> | (my & ey & ->)];
    cbn; try reflexivity || exact I.
  unfold SF64div, SFdiv.
  destruct (SFdiv_core_binary prec emax (Z.pos mx) ex (Z.pos my) ey)
    as [[mz ez] lz].
  pose proof (binary_round_aux_sign false mz ez lz) as H. cbn [xorb].
  now destruct (binary_round_aux prec emax false mz ez lz).
Qed.

(** ** The working-day calendar *)

Lemma days_timedelta_days (n : Z) : days (timedelta_days n) = n.
Proof.
  unfold days, timedelta_days. apply Z.div_mul. discriminate.
Qed.

Lemma days_truncated (td : timedelta) :
  0 <= td -> days td = Z.quot td us_per_day.
Proof.
  intros H. unfold days. symmetry. apply Z.quot_div_nonneg; [exact H |].
  reflexivity.
Qed.

(** C8: for an end date after the start date and 1 <= W <= 7,
    [calculate_working_days] is full_weeks * W + min(remainder, W) on the
    whole days between the dates; a window of 7 days with W = 6 has 6 working
    days and a window of 3 days with W = 6 has 3. *)
Theorem calculate_working_days_formula
    (start_date end_date : datetime) (W : Z) :
  start_date < end_date ->
  1 <= W <= 7 ->
  calculate_working_days start_date end_date W
    = working_days_formula start_date end_date W
  /\ calculate_working_days start_date (start_date + timedelta_days 7) 6 = 6
  /\ calculate_working_days start_date (start_date + timedelta_days 3) 6 = 3.
Proof.
  intros Hlt _. split; [| split].
  - unfold calculate_working_days, working_days_formula, whole_days_between.
    rewrite days_truncated by lia. reflexivity.
  - unfold calculate_working_days.
    replace (start_date + timedelta_days 7 - start_date)
      with (timedelta_days 7) by lia.
    rewrite days_timedelta_days. reflexivity.
  - unfold calculate_working_days.
    replace (start_date + timedelta_days 3 - start_date)
      with (timedelta_days 3) by lia.
    rewrite days_timedelta_days. reflexivity.
Qed.

Lemma calculate_working_days_formula_witness :
  0 < timedelta_days 10 /\ 1 <= 5 <= 7
  /\ (calculate_working_days 0 (timedelta_days 10) 5
        = working_days_formula 0 (timedelta_days 10) 5
      /\ calculate_working_days 0 (0 + timedelta_days 7) 6 = 6
      /\ calculate_working_days 0 (0 + timedelta_days 3) 6 = 3).
Proof.
  assert (H1 : 0 < timedelta_days 10) by reflexivity.
  assert (H2 : 1 <= 5 <= 7) by lia.
  exact (conj H1 (conj H2
    (calculate_working_days_formula 0 (timedelta_days 10) 5 H1 H2))).
Defined.

(** ** BOM explosion *)

Lemma accumulate_app (entry : option float) (l1 l2 : list float) :
  accumulate (accumulate entry l1) l2 = accumulate entry (l1 ++ l2).
Proof.
  destruct l1 as [| x l1]; [reflexivity |].
  destruct l2 as [| y l2]; [now rewrite app_nil_r |].
  cbn [accumulate app default from_option].
  change (x :: l1 ++ y :: l2) with ((x :: l1) ++ y :: l2).
  now rewrite fold_left_app.
Qed.

Lemma lookup_add_requirement (reqs : gmap Z float) (k cid : Z) (q : float) :
  add_requirement reqs k q !! cid
  = if k =? cid then accumulate (reqs !! cid) [q] else reqs !! cid.
Proof.
  unfold add_requirement. destruct (Z.eqb_spec k cid) as [-> | Hne].
  - now rewrite lookup_insert_eq.
  - now rewrite lookup_insert_ne.
Qed.

Lemma is_Some_add_requirement (reqs : gmap Z float) (k cid : Z) (q : float) :
  is_Some (add_requirement reqs k q !! cid)
  <-> is_Some (reqs !! cid) \/ k = cid.
Proof.
  unfold add_requirement. destruct (Z.eq_dec k cid) as [-> | Hne].
  - rewrite lookup_insert_eq. split; eauto.
  - rewrite lookup_insert_ne by assumption. tauto.
Qed.

Lemma explode_bom_cons (li : OrderLineItem.t) (b : HornTypeComponent.t)
    (bom : list HornTypeComponent.t) (reqs : gmap Z float) :
  explode_bom li (b :: bom) reqs
  = explode_bom li bom
      (add_requirement reqs (HornTypeComponent.component_id b)
         (contribution li b)).
Proof. reflexivity. Qed.

Lemma explode_bom_lookup (li : OrderLineItem.t) (cid : Z)
    (bom : list HornTypeComponent.t) :
  forall reqs : gmap Z float,
    explode_bom li bom reqs !! cid
    = accumulate (reqs !! cid)
        (List.map (contribution li)
           (List.filter (fun b => HornTypeComponent.component_id b =? cid)
              bom)).
Proof.
  induction bom as [| b bom IH]; intros reqs; [reflexivity |].
  rewrite explode_bom_cons, IH, lookup_add_requirement. cbn [List.filter].
  destruct (HornTypeComponent.component_id b =? cid); [| reflexivity].
  cbn [List.map]. apply (accumulate_app _ [_]).
Qed.

Lemma explode_bom_is_Some (li : OrderLineItem.t) (cid : Z)
    (bom : list HornTypeComponent.t) :
  forall reqs : gmap Z float,
    is_Some (explode_bom li bom reqs !! cid)
    <-> is_Some (reqs !! cid)
        \/ exists b, In b bom /\ HornTypeComponent.component_id b = cid.
Proof.
  induction bom as [| b bom IH]; intros reqs.
  - cbn. split; [tauto | intros [H | (b & [] & _)]; exact H].
  - rewrite explode_bom_cons, IH, is_Some_add_requirement. split.
    + intros [[H | H] | (b' & Hin & Hb')].
      * now left.
      * right. exists b. split; [now left | exact H].
      * right. exists b'. split; [now right | exact Hb'].
    + intros [H | (b' & [<- | Hin] & Hb')].
      * now left; left.
      * now left; right.
      * right. now exists b'.
Qed.

Lemma explode_line_item_lookup (d : Db) (reqs : gmap Z float)
    (li : OrderLineItem.t) (cid : Z) :
  explode_line_item d reqs li !! cid
  = accumulate (reqs !! cid) (contributions_of d cid li).
Proof.
  unfold explode_line_item, contributions_of.
  destruct (horn_type d li) as [h |]; [apply explode_bom_lookup |].
  reflexivity.
Qed.

Lemma explode_line_item_is_Some (d : Db) (reqs : gmap Z float)
    (li : OrderLineItem.t) (cid : Z) :
  is_Some (explode_line_item d reqs li !! cid)
  <-> is_Some (reqs !! cid) \/ in_bom_of d li cid.
Proof.
  unfold explode_line_item, in_bom_of.
  destruct (horn_type d li) as [h |].
  - rewrite explode_bom_is_Some. split.
    + intros [H | (b & Hin & Hb)]; [now left |].
      right. now exists h, b.
    + intros [H | (h' & b & [= <-] & Hin & Hb)]; [now left |].
      right. now exists b.
  - split; [tauto |]. now intros [H | (h & b & [=] & _)].
Qed.

Lemma explode_lines_lookup (d : Db) (cid : Z)
    (lines : list OrderLineItem.t) :
  forall reqs : gmap Z float,
    fold_left (explode_line_item d) lines reqs !! cid
    = accumulate (reqs !! cid) (flat_map (contributions_of d cid) lines).
Proof.
  induction lines as [| li lines IH]; intros reqs; [reflexivity |].
  cbn [fold_left flat_map].
  now rewrite IH, explode_line_item_lookup, accumulate_app.
Qed.

Lemma explode_lines_is_Some (d : Db) (cid : Z)
    (lines : list OrderLineItem.t) :
  forall reqs : gmap Z float,
    is_Some (fold_left (explode_line_item d) lines reqs !! cid)
    <-> is_Some (reqs !! cid)
        \/ exists li, In li lines /\ in_bom_of d li cid.
Proof.
  induction lines as [| li lines IH]; intros reqs.
  - cbn. split; [tauto | intros [H | (b & [] & _)]; exact H].
  - cbn [fold_left]. rewrite IH, explode_line_item_is_Some. split.
    + intros [[H | H] | (li' & Hin & Hli')].
      * now left.
      * right. exists li. split; [now left | exact H].
      * right. exists li'. split; [now right | exact Hli'].
    + intros [H | (li' & [<- | Hin] & Hli')].
      * now left; left.
      * now left; right.
      * right. now exists li'.
Qed.

Lemma explode_order_is_Some (d : Db) (o : Order.t) (cid : Z) :
  is_Some (explode_order d o !! cid) <-> referenced d o cid.
Proof.
  unfold explode_order, referenced. rewrite explode_lines_is_Some.
  rewrite lookup_empty. split.
  - intros [H | H]; [destruct H as [? [=]] | exact H].
  - intros H. now right.
Qed.

(** The entry of a component is what the additions of its contributions,
    in the order of the loops, leave. *)
Lemma explode_order_lookup (d : Db) (o : Order.t) (cid : Z) :
  explode_order d o !! cid = accumulate None (contributions d o cid).
Proof.
  unfold explode_order, contributions.
  now rewrite explode_lines_lookup, lookup_empty.
Qed.

Lemma explode_order_entry (d : Db) (o : Order.t) (cid : Z) (q : float) :
  explode_order d o !! cid = Some q -> q = aggregate_requirement d o cid.
Proof.
  rewrite explode_order_lookup. unfold aggregate_requirement, float_sum.
  destruct (contributions d o cid) as [| x l]; [discriminate |].
  now intros [= <-].
Qed.

(** C5, amended: the exploded mapping has an entry for exactly the
    components that occur in the BOM of some line item's product type; the
    entry is the sum, accumulated in floating point from 0.0 in the order
    of the line items and of their BOM entries, of the floating-point
    products of the line item's quantity and the quantity per unit; a line
    item whose product type has no BOM entries leaves the mapping as it
    is; and 100 units at 2 per unit plus 50 units at 1 per unit give
    250. *)
Theorem explode_order_aggregate (d : Db) (o : Order.t) (cid : Z) :
  (is_Some (explode_order d o !! cid) <-> referenced d o cid)
  /\ (forall q, explode_order d o !! cid = Some q ->
        q = aggregate_requirement d o cid)
  /\ (forall reqs li h,
        horn_type d li = Some h -> bom_components d h = [] ->
        explode_line_item d reqs li = reqs)
  /\ (exists o' q,
        query_get Order.id (orders bom_example) 1 = Some o'
        /\ explode_order bom_example o' !! 1 = Some q /\ q = 250%float).
Proof.
  split; [| split; [| split]].
  - apply explode_order_is_Some.
  - apply explode_order_entry.
  - intros reqs li h Hh Hbom. unfold explode_line_item.
    now rewrite Hh, Hbom.
  - eexists _, _. split; [reflexivity |]. split; [vm_compute; reflexivity |].
    reflexivity.
Qed.

(** C5 as stated fails: for 3 units of a product type that needs 0.1 of a
    component per unit, the entry of the component is the float
    0.30000000000000004, which is not 3 times the quantity per unit. *)
Lemma explode_order_aggregate_counterexample :
  exists o li h b q total per_unit,
    query_get Order.id (orders fraction_example) 1 = Some o
    /\ line_items fraction_example o = [li]
    /\ horn_type fraction_example li = Some h
    /\ bom_components fraction_example h = [b]
    /\ explode_order fraction_example o
         !! HornTypeComponent.component_id b
       = Some q
    /\ exact q = Some total
    /\ exact (HornTypeComponent.quantity_per_horn b) = Some per_unit
    /\ ~ (total == inject_Z (OrderLineItem.quantity li) * per_unit)%Q.
Proof.
  eexists _, _, _, _, _, _, _.
  split; [reflexivity |]. split; [reflexivity |]. split; [reflexivity |].
  split; [reflexivity |]. split; [vm_compute; reflexivity |].
  split; [vm_compute; reflexivity |]. split; [vm_compute; reflexivity |].
  intros H. vm_compute in H. discriminate H.
Qed.

(** ** The planning loop *)

Lemma plan_component_spec (order_id : Z) (config : ProductionConfig.t)
    (production_start : datetime) (reqs : gmap Z float) (c : Component.t)
    (w : World) :
  let r := plan_component order_id config production_start reqs c w in
  stored (snd r) = stored w
  /\ clock (snd r) = clock w
  /\ match fst r with
     | inl e => True
     | inr p =>
         plan_of order_id config production_start reqs (clock w) c p
         /\ session (snd r)
            = with_mrp_plans (session w) (mrp_plans (session w) ++ [p])
     end.
Proof.
  unfold plan_component, add_mrp_plan.
  destruct (moq_quantity _ c) as [e | q] eqn:Hq; [now repeat split |].
  run_monad.
  set (calculated := production_start - _).
  assert (Hd : exists k,
             (if calculated <? clock w (reads w)
              then clock w (S (reads w)) else calculated)
             = order_date_at (clock w) k calculated)
    by (now exists (reads w)).
  destruct (calculated <? clock w (reads w)); run_monad;
    (split; [reflexivity |]; split; [reflexivity |];
     split; [| reflexivity];
     constructor; try reflexivity; [now exists q | exact Hd]).
Qed.

Lemma plan_components_spec (order_id : Z) (config : ProductionConfig.t)
    (production_start : datetime) (reqs : gmap Z float)
    (cs : list Component.t) :
  forall w,
    let r := plan_components order_id config production_start reqs cs w in
    stored (snd r) = stored w
    /\ clock (snd r) = clock w
    /\ match fst r with
       | inl e => True
       | inr plans =>
           Forall2 (plan_of order_id config production_start reqs (clock w))
             cs plans
           /\ session (snd r)
              = with_mrp_plans (session w) (mrp_plans (session w) ++ plans)
       end.
Proof.
  induction cs as [| c cs IH]; intros w.
  - cbn. repeat split; [constructor |].
    rewrite app_nil_r. now destruct (session w).
  - cbn [plan_components]. unfold mbind, M_bind, mret, M_ret.
    pose proof (plan_component_spec order_id config production_start reqs
                  c w) as Hc.
    destruct (plan_component order_id config production_start reqs c w)
      as [[e | p] w1]; cbn [fst snd] in Hc |- *;
      destruct Hc as (Hst1 & Hck1 & Hp); [now repeat split |].
    destruct Hp as [Hp Hs1]. specialize (IH w1).
    destruct (plan_components order_id config production_start reqs cs w1)
      as [[e | ps] w2]; cbn [fst snd] in IH |- *;
      destruct IH as (Hst2 & Hck2 & Hps);
      (split; [congruence |]); (split; [congruence |]); [exact I |].
    destruct Hps as [Hps Hs2]. rewrite Hck1 in Hps. split.
    + now constructor.
    + rewrite Hs2, Hs1. unfold with_mrp_plans. cbn. now rewrite <- app_assoc.
Qed.

(** ** The outcomes of generate_mrp *)

(** Runs the planning loop in the goal and closes the case with the loop's
    specification. *)
Ltac run_planning_loop :=
  run_monad;
  match goal with
  | |- context [plan_components ?a ?b ?c ?r ?f ?w] =>
      let H := fresh "H" in
      let e := fresh "e" in
      let plans := fresh "plans" in
      let w1 := fresh "w" in
      pose proof (plan_components_spec a b c r f w) as H;
      destruct (plan_components a b c r f w) as [[e | plans] w1];
      cbn [fst snd session stored reads clock] in H;
      [destruct H as (-> & _ & _); left; now exists e
      |destruct H as (_ & _ & ? & ->); right;
       eexists _, plans; cbn;
       split; [reflexivity |]; split; [eassumption |]; now repeat split]
  end.

(** Every path through the handler, with the database it leaves. *)
Lemma generate_mrp_cases (clk : nat -> datetime) (d : Db) (order_id : Z) :
  match query_get Order.id (orders d) order_id with
  | None => run_request (generate_mrp order_id) clk d = (NotFound, d)
  | Some order =>
  match production_config d with
  | [] =>
      run_request (generate_mrp order_id) clk d
      = (BadRequest "Production configuration not set", d)
  | config :: _ =>
  let reqs := explode_order d order in
  let wd :=
    calculate_working_days (order_date_of clk order) (Order.deadline order)
      (ProductionConfig.working_days_per_week config) in
  let capacity := ProductionConfig.daily_production_capacity config in
  if (size reqs =? 0)%nat then
    run_request (generate_mrp order_id) clk d
    = (BadRequest
         "Order has no horn types with components. Add components to horn types first.",
       d)
  else if wd <=? 0 then
    run_request (generate_mrp order_id) clk d
    = (BadRequest "Invalid deadline - not enough working days", d)
  else
  match required_daily d order wd with
  | inl e => run_request (generate_mrp order_id) clk d = (Raised e, d)
  | inr daily =>
  if capacity <? daily then
    match ceil_div (total_quantity d order) capacity with
    | inl e => run_request (generate_mrp order_id) clk d = (Raised e, d)
    | inr required_days =>
        run_request (generate_mrp order_id) clk d
        = (CapacityWarning (capacity_warning daily capacity) required_days
             wd,
           d)
    end
  else
    (exists e, run_request (generate_mrp order_id) clk d = (Raised e, d))
    \/ exists summary plans,
         run_request (generate_mrp order_id) clk d
         = (MrpGenerated summary plans,
            with_mrp_plans d (other_orders_plans d order_id ++ plans))
         /\ Forall2
              (plan_of order_id config
                 (order_date_of clk order
                  + timedelta_days
                      (ProductionConfig.safety_stock_days config))
                 reqs clk)
              (planned_components d reqs) plans
         /\ summary_production_start summary
            = order_date_of clk order
              + timedelta_days (ProductionConfig.safety_stock_days config)
         /\ summary_working_days summary = wd
         /\ summary_daily_production summary = daily
  end
  end
  end.
Proof.
  unfold run_request, generate_mrp. run_monad.
  destruct (query_get Order.id (orders d) order_id) as [order |];
    [| reflexivity].
  destruct (production_config d) as [| config configs]; [reflexivity |].
  cbv zeta. destruct (size (explode_order d order) =? 0)%nat;
    [reflexivity |].
  run_monad. unfold order_date_of, required_daily.
  destruct (Order.order_date order) as [t |]; run_monad.
  - destruct (calculate_working_days t _ _ <=? 0); [reflexivity |].
    destruct (ceil_div (total_quantity d order) _) as [e | daily];
      [reflexivity |].
    destruct (_ <? daily);
      [destruct (ceil_div _ _); reflexivity |].
    run_planning_loop.
  - destruct (calculate_working_days (clk 0%nat) _ _ <=? 0);
      [reflexivity |].
    destruct (ceil_div (total_quantity d order) _) as [e | daily];
      [reflexivity |].
    destruct (_ <? daily);
      [destruct (ceil_div _ _); reflexivity |].
    run_planning_loop.
Qed.

(** What a request leaves of the database, whatever the answer: what was
    there, or the plans of a successful generation. *)
Lemma generate_mrp_stored (clk : nat -> datetime) (d : Db) (order_id : Z) :
  (is_generated (fst (run_request (generate_mrp order_id) clk d)) = false
   /\ snd (run_request (generate_mrp order_id) clk d) = d)
  \/ exists order config configs summary plans,
       query_get Order.id (orders d) order_id = Some order
       /\ production_config d = config :: configs
       /\ run_request (generate_mrp order_id) clk d
          = (MrpGenerated summary plans,
             with_mrp_plans d (other_orders_plans d order_id ++ plans))
       /\ Forall2
            (plan_of order_id config
               (order_date_of clk order
                + timedelta_days (ProductionConfig.safety_stock_days config))
               (explode_order d order) clk)
            (planned_components d (explode_order d order)) plans
       /\ summary_production_start summary
          = order_date_of clk order
            + timedelta_days (ProductionConfig.safety_stock_days config).
Proof.
  pose proof (generate_mrp_cases clk d order_id) as H.
  destruct (query_get Order.id (orders d) order_id) as [order |];
    [| left; now rewrite H].
  destruct (production_config d) as [| config configs];
    [left; now rewrite H |].
  cbv zeta in H.
  destruct (size (explode_order d order) =? 0)%nat; [left; now rewrite H |].
  destruct (calculate_working_days _ _ _ <=? 0); [left; now rewrite H |].
  destruct (required_daily d order _) as [e | daily];
    [left; now rewrite H |].
  destruct (_ <? daily);
    [destruct (ceil_div _ _); left; now rewrite H |].
  destruct H as [[e H] | (summary & plans & Hrun & HF & Hstart & _)];
    [left; now rewrite H |].
  right. now exists order, config, configs, summary, plans.
Qed.

(** A successful generation, read backwards. *)
Lemma generate_mrp_generated (clk : nat -> datetime) (d d' : Db)
    (order_id : Z) (summary : Summary) (plans : list MRPPlan.t) :
  run_request (generate_mrp order_id) clk d
  = (MrpGenerated summary plans, d') ->
  exists order config configs,
    query_get Order.id (orders d) order_id = Some order
    /\ production_config d = config :: configs
    /\ d' = with_mrp_plans d (other_orders_plans d order_id ++ plans)
    /\ Forall2
         (plan_of order_id config
            (order_date_of clk order
             + timedelta_days (ProductionConfig.safety_stock_days config))
            (explode_order d order) clk)
         (planned_components d (explode_order d order)) plans
    /\ summary_production_start summary
       = order_date_of clk order
         + timedelta_days (ProductionConfig.safety_stock_days config).
Proof.
  intros Hrun.
  destruct (generate_mrp_stored clk d order_id)
    as [[Herr _]
       | (order & config & configs & summary' & plans' & Horder & Hconfig
          & Hrun' & HF & Hstart)].
  - rewrite Hrun in Herr. discriminate Herr.
  - rewrite Hrun in Hrun'. injection Hrun' as -> -> ->.
    now exists order, config, configs.
Qed.

(** Past the checks of the order, the configuration, the demand and the
    working days, the answer is no 400 error. *)
Lemma generate_mrp_checked (clk : nat -> datetime) (d : Db) (order_id : Z)
    (order : Order.t) (config : ProductionConfig.t)
    (configs : list ProductionConfig.t) (error : string) :
  query_get Order.id (orders d) order_id = Some order ->
  production_config d = config :: configs ->
  (size (explode_order d order) =? 0)%nat = false ->
  (calculate_working_days (order_date_of clk order) (Order.deadline order)
     (ProductionConfig.working_days_per_week config) <=? 0) = false ->
  fst (run_request (generate_mrp order_id) clk d) <> BadRequest error.
Proof.
  intros Horder Hconfig Hsize Hwd.
  pose proof (generate_mrp_cases clk d order_id) as H.
  rewrite Horder, Hconfig in H. cbv zeta in H. rewrite Hsize, Hwd in H.
  destruct (required_daily d order _) as [e | daily];
    [rewrite H; discriminate |].
  destruct (_ <? daily);
    [destruct (ceil_div _ _); rewrite H; discriminate |].
  destruct H as [[e ->] | (summary & plans & -> & _)]; discriminate.
Qed.

Lemma Forall2_plan_of_In (order_id : Z) (config : ProductionConfig.t)
    (production_start : datetime) (reqs : gmap Z float)
    (clk : nat -> datetime) (cs : list Component.t)
    (plans : list MRPPlan.t) (p : MRPPlan.t) :
  Forall2 (plan_of order_id config production_start reqs clk) cs plans ->
  In p plans ->
  exists c,
    In c cs /\ plan_of order_id config production_start reqs clk c p.
Proof.
  induction 1 as [| c p' cs plans Hp _ IH]; intros Hin.
  - destruct Hin.
  - destruct Hin as [<- | Hin].
    + exists c. split; [now left | exact Hp].
    + destruct (IH Hin) as (c' & Hc' & Hp'). exists c'.
      split; [now right | exact Hp'].
Qed.

(** The plans stored for the order after a successful generation are the
    new ones. *)
Lemma generated_plans_stored (d : Db) (order_id : Z)
    (config : ProductionConfig.t) (production_start : datetime)
    (reqs : gmap Z float) (clk : nat -> datetime) (cs : list Component.t)
    (plans : list MRPPlan.t) (p : MRPPlan.t) :
  Forall2 (plan_of order_id config production_start reqs clk) cs plans ->
  In p (other_orders_plans d order_id ++ plans)
  /\ MRPPlan.order_id p = order_id
  <-> In p plans.
Proof.
  intros HF. rewrite in_app_iff. unfold other_orders_plans.
  rewrite filter_In. split.
  - intros [[[_ Hne] | Hin] Heq]; [| exact Hin].
    rewrite Heq, Z.eqb_refl in Hne. discriminate.
  - intros Hin. split; [now right |].
    destruct (Forall2_plan_of_In _ _ _ _ _ _ _ _ HF Hin) as (c & _ & Hp).
    apply (plan_order_id _ _ _ _ _ _ _ Hp).
Qed.

(** ** Failure leaves the database as it was *)



(** ** The capacity check *)

(** C6, amended: past the earlier checks, when the required daily
    production, [math.ceil] of the float quotient of the total quantity by
    the working days, exceeds the configured capacity C, nothing is
    generated or stored and the answer carries required_days, [math.ceil]
    of the float quotient of the total quantity by C, and available_days =
    working days; 200,000 units in 50 working days at 3,000 a day are
    refused with a required daily production of 4000 and 67 required
    days. *)
Theorem generate_mrp_capacity_exceeded (clk : nat -> datetime) (d : Db)
    (order_id : Z) (order : Order.t) (config : ProductionConfig.t)
    (configs : list ProductionConfig.t)
    (working_days daily_production required_days : Z) :
  query_get Order.id (orders d) order_id = Some order ->
  production_config d = config :: configs ->
  size (explode_order d order) <> 0%nat ->
  working_days
  = calculate_working_days (order_date_of clk order) (Order.deadline order)
      (ProductionConfig.working_days_per_week config) ->
  0 < working_days ->
  ceil_div (total_quantity d order) working_days = inr daily_production ->
  ProductionConfig.daily_production_capacity config < daily_production ->
  ceil_div (total_quantity d order)
    (ProductionConfig.daily_production_capacity config)
  = inr required_days ->
  run_request (generate_mrp order_id) clk d
  = (CapacityWarning
       (capacity_warning daily_production
          (ProductionConfig.daily_production_capacity config))
       required_days working_days,
     d)
  /\ run_request (generate_mrp 1) clk capacity_example
     = (CapacityWarning
          "Required daily production (4000) exceeds capacity (3000)" 67 50,
        capacity_example).
Proof.
  intros Horder Hconfig Hsize -> Hwd Hdaily Hcap Hdays.
  split; [| vm_compute; reflexivity].
  pose proof (generate_mrp_cases clk d order_id) as H.
  rewrite Horder, Hconfig in H. cbv zeta in H.
  apply Nat.eqb_neq in Hsize. rewrite Hsize in H.
  apply Z.leb_gt in Hwd. rewrite Hwd in H.
  unfold required_daily in H. rewrite Hdaily in H.
  apply Z.ltb_lt in Hcap. rewrite Hcap in H.
  now rewrite Hdays in H.
Qed.

Lemma generate_mrp_capacity_exceeded_witness :
  query_get Order.id (orders capacity_example) 1
  = Some (Order.mk 1 (Some 0) (timedelta_days 58))
  /\ production_config capacity_example
     = [ProductionConfig.mk 1 3000 6 30 3]
  /\ ceil_div 200000 50 = inr 4000
  /\ ceil_div 200000 3000 = inr 67
  /\ run_request (generate_mrp 1) (fun _ => 0) capacity_example
     = (CapacityWarning (capacity_warning 4000 3000) 67 50,
        capacity_example).
Proof.
  pose (o := Order.mk 1 (Some 0) (timedelta_days 58)).
  pose (c := ProductionConfig.mk 1 3000 6 30 3).
  assert (H1 : query_get Order.id (orders capacity_example) 1 = Some o)
    by reflexivity.
  assert (H2 : production_config capacity_example = [c]) by reflexivity.
  assert (H3 : size (explode_order capacity_example o) <> 0%nat)
    by (vm_compute; discriminate).
  assert (H4 : 50 = calculate_working_days (order_date_of (fun _ => 0) o)
                      (Order.deadline o)
                      (ProductionConfig.working_days_per_week c))
    by reflexivity.
  assert (H5 : 0 < 50) by reflexivity.
  assert (H6 : ceil_div (total_quantity capacity_example o) 50 = inr 4000)
    by (vm_compute; reflexivity).
  assert (H7 : ProductionConfig.daily_production_capacity c < 4000)
    by reflexivity.
  assert (H8 : ceil_div (total_quantity capacity_example o)
                 (ProductionConfig.daily_production_capacity c)
               = inr 67)
    by (vm_compute; reflexivity).
  split; [exact H1 |]. split; [exact H2 |].
  split; [exact H6 |]. split; [exact H8 |].
  exact (proj1 (generate_mrp_capacity_exceeded (fun _ => 0) capacity_example
                  1 o c [] 50 4000 67 H1 H2 H3 H4 H5 H6 H7 H8)).
Defined.

(** C6 as stated fails: for 2^53 + 1 units in one working day and a
    capacity of 2^53 a day, the required daily production 2^53 + 1 exceeds
    the capacity, but the float quotient is 2^53, the check passes and the
    plan is generated and stored. *)
Lemma generate_mrp_capacity_exceeded_counterexample :
  exists order config summary plans d',
    query_get Order.id (orders rounding_example) 1 = Some order
    /\ production_config rounding_example = [config]
    /\ total_quantity rounding_example order = 2 ^ 53 + 1
    /\ calculate_working_days (order_date_of (fun _ => 0) order)
         (Order.deadline order)
         (ProductionConfig.working_days_per_week config)
       = 1
    /\ ProductionConfig.daily_production_capacity config = 2 ^ 53
    /\ ProductionConfig.daily_production_capacity config
       < exact_ceil_div (total_quantity rounding_example order) 1
    /\ run_request (generate_mrp 1) (fun _ => 0) rounding_example
       = (MrpGenerated summary plans, d')
    /\ summary_daily_production summary = 2 ^ 53
    /\ mrp_plans d' = plans
    /\ plans <> [].
Proof.
  eexists _, _, _, _, _.
  split; [reflexivity |]. split; [reflexivity |].
  split; [reflexivity |]. split; [reflexivity |].
  split; [reflexivity |]. split; [reflexivity |].
  split; [vm_compute; reflexivity |].
  split; [reflexivity |]. split; [reflexivity |]. discriminate.
Qed.

(** ** Back-scheduling *)

(** C7: with the order date O, the buffer of S days and the lead time of L
    days of the plan's component, production starts at O + S days, the order
    date of every stored plan of the order is production start - (L + S)
    days, or a read of the clock when that date is before the current
    instant, and the expected delivery is the order date + L days; all plans
    use the one production start. *)
Theorem generate_mrp_schedule (clk : nat -> datetime) (d d' : Db)
    (order_id : Z) (summary : Summary) (plans : list MRPPlan.t)
    (order : Order.t) (config : ProductionConfig.t)
    (configs : list ProductionConfig.t) (O : datetime) :
  run_request (generate_mrp order_id) clk d
  = (MrpGenerated summary plans, d') ->
  query_get Order.id (orders d) order_id = Some order ->
  Order.order_date order = Some O ->
  production_config d = config :: configs ->
  let buffer := ProductionConfig.safety_stock_days config in
  let production_start := O + timedelta_days buffer in
  summary_production_start summary = production_start
  /\ forall p,
       In p (mrp_plans d') -> MRPPlan.order_id p = order_id ->
       exists c k,
         In c (components d)
         /\ Component.id c = MRPPlan.component_id p
         /\ let L := Component.lead_time_days c in
            let calculated :=
              production_start - timedelta_days (L + buffer) in
            (calculated < clk k -> MRPPlan.order_date p = clk (S k))
            /\ (clk k <= calculated -> MRPPlan.order_date p = calculated)
            /\ MRPPlan.expected_delivery p
               = MRPPlan.order_date p + timedelta_days L.
Proof.
  intros Hrun Horder HO Hconfig buffer production_start.
  destruct (generate_mrp_generated _ _ _ _ _ _ Hrun)
    as (order' & config' & configs' & Horder' & Hconfig' & -> & HF & Hstart).
  rewrite Horder in Horder'. injection Horder' as <-.
  rewrite Hconfig in Hconfig'. injection Hconfig' as <- <-.
  unfold order_date_of in HF, Hstart. rewrite HO in HF, Hstart.
  split; [exact Hstart |].
  intros p Hin Hoid. cbn [mrp_plans with_mrp_plans] in Hin.
  assert (Hin' : In p plans)
    by (apply (generated_plans_stored d _ _ _ _ _ _ _ p HF); now split).
  destruct (Forall2_plan_of_In _ _ _ _ _ _ _ _ HF Hin') as (c & Hc & Hp).
  destruct (plan_order_date _ _ _ _ _ _ _ Hp) as [k Hk].
  exists c, k. split.
  { unfold planned_components in Hc. apply filter_In in Hc. apply Hc. }
  split; [symmetry; apply (plan_component_id _ _ _ _ _ _ _ Hp) |].
  cbv zeta. unfold order_date_at in Hk. split; [| split].
  - intros Hlt. apply Z.ltb_lt in Hlt. fold buffer production_start in Hk.
    now rewrite Hlt in Hk.
  - intros Hle. apply Z.ltb_ge in Hle. fold buffer production_start in Hk.
    now rewrite Hle in Hk.
  - apply (plan_expected_delivery _ _ _ _ _ _ _ Hp).
Qed.

Lemma generate_mrp_schedule_witness :
  exists summary plans d',
    run_request (generate_mrp 1) (fun _ => timedelta_days 50)
      schedule_example
    = (MrpGenerated summary plans, d')
    /\ List.map MRPPlan.order_date plans
       = [timedelta_days 93; timedelta_days 50]
    /\ List.map MRPPlan.expected_delivery plans
       = [timedelta_days 100; timedelta_days 110]
    /\ summary_production_start summary = timedelta_days 103
    /\ forall p,
         In p (mrp_plans d') -> MRPPlan.order_id p = 1 ->
         exists (c : Component.t) (k : nat),
           In c (components schedule_example)
           /\ Component.id c = MRPPlan.component_id p
           /\ (timedelta_days 103
               - timedelta_days (Component.lead_time_days c + 3)
               < timedelta_days 50 ->
               MRPPlan.order_date p = timedelta_days 50)
           /\ (timedelta_days 50
               <= timedelta_days 103
                  - timedelta_days (Component.lead_time_days c + 3) ->
               MRPPlan.order_date p
               = timedelta_days 103
                 - timedelta_days (Component.lead_time_days c + 3))
           /\ MRPPlan.expected_delivery p
              = MRPPlan.order_date p
                + timedelta_days (Component.lead_time_days c).
Proof.
  eexists _, _, _.
  split; [vm_compute; reflexivity |].
  split; [reflexivity |]. split; [reflexivity |].
  refine (generate_mrp_schedule (fun _ => timedelta_days 50)
            schedule_example _ 1 _ _
            (Order.mk 1 (Some (timedelta_days 100)) (timedelta_days 130))
            (ProductionConfig.mk 1 4000 6 30 3) [] (timedelta_days 100)
            _ _ _ _).
  - vm_compute; reflexivity.
  - reflexivity.
  - reflexivity.
  - reflexivity.
Defined.

(** ** Lot sizing *)

Lemma ltb_irrefl (x : float) : (x <? x)%float = false.
Proof.
  rewrite ltb_spec. unfold SFltb.
  destruct (Prim2SF x) as [s | [|] | | [|] m e]; cbn; try reflexivity;
    now rewrite Z.compare_refl, Pos.compare_cont_refl.
Qed.

Lemma moq_quantity_rounds (net : float) (c : Component.t) :
  (0 <? Component.minimum_order_quantity c)%float = true ->
  (0 <? net)%float = true ->
  moq_quantity net c
  = (lots ← ceil (Prim2SF (net / Component.minimum_order_quantity c));
     mret (float_of_int lots * Component.minimum_order_quantity c)%float).
Proof.
  intros Hmoq Hnet. unfold moq_quantity. now rewrite Hnet, Hmoq.
Qed.

Lemma moq_quantity_no_moq (net : float) (c : Component.t) :
  (0 <? Component.minimum_order_quantity c)%float = false ->
  (0 <? net)%float = true ->
  moq_quantity net c = inr net.
Proof.
  intros Hmoq Hnet. unfold moq_quantity. now rewrite Hnet, Hmoq.
Qed.

Lemma moq_quantity_zero (net : float) (c : Component.t) :
  (0 <? net)%float = false -> moq_quantity net c = inr 0%float.
Proof.
  intros Hnet. unfold moq_quantity. now rewrite Hnet.
Qed.

Lemma max_stock_cap_id (c : Component.t) (q : float) :
  (0 <? Component.max_stock_level c)%float = false
  \/ (Component.max_stock_level c - Component.current_inventory c <? q)%float
     = false ->
  max_stock_cap c q = q.
Proof.
  intros H. unfold max_stock_cap.
  destruct (0 <? Component.max_stock_level c)%float; [| reflexivity].
  cbv zeta. destruct H as [H | H]; [discriminate H |]. now rewrite H.
Qed.

Lemma max_stock_cap_cut (c : Component.t) (q : float) :
  (0 <? Component.max_stock_level c)%float = true ->
  (Component.max_stock_level c - Component.current_inventory c <? q)%float
  = true ->
  max_stock_cap c q
  = (Component.max_stock_level c - Component.current_inventory c)%float.
Proof.
  intros Hmax Hq. unfold max_stock_cap. rewrite Hmax. cbv zeta.
  now rewrite Hq.
Qed.

(** With a maximum stock level, the capped quantity does not exceed the
    headroom. *)
Lemma max_stock_cap_le (c : Component.t) (q : float) :
  (0 <? Component.max_stock_level c)%float = true ->
  (Component.max_stock_level c - Component.current_inventory c
   <? max_stock_cap c q)%float
  = false.
Proof.
  intros Hmax. unfold max_stock_cap. rewrite Hmax. cbv zeta.
  destruct (_ <? q)%float eqn:Hq; [apply ltb_irrefl | exact Hq].
Qed.

(** A stored plan of the order after a successful generation was built from
    a component of the table. *)
Lemma generated_plan_component (clk : nat -> datetime) (d d' : Db)
    (order_id : Z) (summary : Summary) (plans : list MRPPlan.t)
    (p : MRPPlan.t) :
  run_request (generate_mrp order_id) clk d
  = (MrpGenerated summary plans, d') ->
  In p (mrp_plans d') -> MRPPlan.order_id p = order_id ->
  exists c q,
    In c (components d)
    /\ Component.id c = MRPPlan.component_id p
    /\ MRPPlan.current_inventory p = Component.current_inventory c
    /\ MRPPlan.net_requirement p
       = max0 (MRPPlan.total_required p - MRPPlan.current_inventory p)%float
    /\ moq_quantity (MRPPlan.net_requirement p) c = inr q
    /\ MRPPlan.order_quantity p = max_stock_cap c q
    /\ MRPPlan.estimated_cost p
       = (MRPPlan.order_quantity p * Component.unit_cost c)%float.
Proof.
  intros Hrun Hin Hoid.
  destruct (generate_mrp_generated _ _ _ _ _ _ Hrun)
    as (order & config & configs & _ & _ & -> & HF & _).
  cbn [mrp_plans with_mrp_plans] in Hin.
  assert (Hin' : In p plans)
    by (apply (generated_plans_stored d _ _ _ _ _ _ _ p HF); now split).
  destruct (Forall2_plan_of_In _ _ _ _ _ _ _ _ HF Hin') as (c & Hc & Hp).
  destruct (plan_order_quantity _ _ _ _ _ _ _ Hp) as (q & Hq & Hoq).
  exists c, q. split.
  { unfold planned_components in Hc. apply filter_In in Hc. apply Hc. }
  split; [symmetry; apply (plan_component_id _ _ _ _ _ _ _ Hp) |].
  split; [apply (plan_current_inventory _ _ _ _ _ _ _ Hp) |].
  split.
  { rewrite (plan_net_requirement _ _ _ _ _ _ _ Hp).
    unfold net_requirement.
    now rewrite (plan_current_inventory _ _ _ _ _ _ _ Hp). }
  split; [exact Hq |]. split; [exact Hoq |].
  apply (plan_estimated_cost _ _ _ _ _ _ _ Hp).
Qed.

(** The part of the maximum stock rule that the code keeps: with a maximum
    stock level, a stored order quantity is never greater than
    max_stock_level - current_inventory. *)
Lemma generate_mrp_order_quantity_bound (clk : nat -> datetime) (d d' : Db)
    (order_id : Z) (summary : Summary) (plans : list MRPPlan.t)
    (p : MRPPlan.t) :
  run_request (generate_mrp order_id) clk d
  = (MrpGenerated summary plans, d') ->
  In p (mrp_plans d') -> MRPPlan.order_id p = order_id ->
  exists c,
    In c (components d)
    /\ Component.id c = MRPPlan.component_id p
    /\ ((0 <? Component.max_stock_level c)%float = true ->
        (Component.max_stock_level c - Component.current_inventory c
         <? MRPPlan.order_quantity p)%float
        = false).
Proof.
  intros Hrun Hin Hoid.
  destruct (generated_plan_component _ _ _ _ _ _ _ Hrun Hin Hoid)
    as (c & q & Hc & Hid & _ & _ & _ & Hq & _).
  exists c. split; [exact Hc |]. split; [exact Hid |].
  intros Hmax. rewrite Hq. now apply max_stock_cap_le.
Qed.

(** C1, at an input where it fails: the component has a maximum stock level
    of 100 and a stock of 150, the headroom is -50, and the stored order
    quantity is -50: it is not floored at 0. *)
Theorem generate_mrp_negative_order_quantity :
  exists summary p d' c,
    run_request (generate_mrp 1) (fun _ => 0) overstock_example
    = (MrpGenerated summary [p], d')
    /\ mrp_plans d' = [p]
    /\ components overstock_example = [c]
    /\ Component.id c = MRPPlan.component_id p
    /\ (0 <? Component.max_stock_level c)%float = true
    /\ (Component.max_stock_level c - Component.current_inventory c)%float
       = (-50)%float
    /\ MRPPlan.net_requirement p = 50%float
    /\ MRPPlan.order_quantity p = (-50)%float
    /\ (0 <=? MRPPlan.order_quantity p)%float = false.
Proof.
  eexists _, _, _, _.
  split; [vm_compute; reflexivity |].
  now repeat (split; [reflexivity |]).
Qed.

(** C3, at an input where it fails: the demand of 10 is covered by the
    stock of 150, the net requirement is 0, and the stored order quantity is
    the headroom -50 instead of 0. *)
Theorem generate_mrp_zero_net_nonzero_order :
  exists summary p d',
    run_request (generate_mrp 1) (fun _ => 0) covered_example
    = (MrpGenerated summary [p], d')
    /\ mrp_plans d' = [p]
    /\ MRPPlan.total_required p = 10%float
    /\ MRPPlan.current_inventory p = 150%float
    /\ MRPPlan.net_requirement p = 0%float
    /\ MRPPlan.order_quantity p = (-50)%float
    /\ (MRPPlan.order_quantity p =? 0)%float = false.
Proof.
  eexists _, _, _.
  split; [vm_compute; reflexivity |].
  now repeat (split; [reflexivity |]).
Qed.

(** C2 as stated fails: the net requirement 150 is rounded up to 200, two
    times the minimum order quantity of 100, and then cut to the headroom
    150, which is no whole multiple of 100. *)
Lemma generate_mrp_moq_multiple_counterexample :
  exists summary p d' c order_quantity MOQ,
    run_request (generate_mrp 1) (fun _ => 0) moq_cap_example
    = (MrpGenerated summary [p], d')
    /\ mrp_plans d' = [p]
    /\ components moq_cap_example = [c]
    /\ Component.id c = MRPPlan.component_id p
    /\ (0 <? Component.minimum_order_quantity c)%float = true
    /\ (0 <? MRPPlan.net_requirement p)%float = true
    /\ ceil (Prim2SF (MRPPlan.net_requirement p
                      / Component.minimum_order_quantity c))
       = inr 2
    /\ (float_of_int 2 * Component.minimum_order_quantity c)%float
       = 200%float
    /\ MRPPlan.order_quantity p = 150%float
    /\ exact (MRPPlan.order_quantity p) = Some order_quantity
    /\ exact (Component.minimum_order_quantity c) = Some MOQ
    /\ ~ (exists k : Z, (order_quantity == inject_Z k * MOQ)%Q).
Proof.
  eexists _, _, _, _, _, _.
  split; [vm_compute; reflexivity |].
  do 8 (split; [reflexivity |]).
  split; [vm_compute; reflexivity |]. split; [vm_compute; reflexivity |].
  intros [k Hk]. unfold Qeq in Hk. cbn in Hk. lia.
Qed.

(** C2, amended: for a stored plan of the order whose component has a
    minimum order quantity MOQ > 0 and whose net requirement is > 0, the
    number of lots [math.ceil(net_requirement / MOQ)], taken of the float
    quotient, is a whole number that is not negative, and with rounded the
    float product of the lots and the MOQ: the order quantity is rounded
    when the component has no maximum stock level > 0 or rounded is not
    greater than max_stock_level - current_inventory; and it is
    max_stock_level - current_inventory when the maximum stock level is
    > 0 and rounded is greater than that difference and the difference is
    at least 0. *)
Theorem generate_mrp_moq_multiple (clk : nat -> datetime) (d d' : Db)
    (order_id : Z) (summary : Summary) (plans : list MRPPlan.t)
    (p : MRPPlan.t) :
  run_request (generate_mrp order_id) clk d
  = (MrpGenerated summary plans, d') ->
  In p (mrp_plans d') -> MRPPlan.order_id p = order_id ->
  exists c,
    In c (components d)
    /\ Component.id c = MRPPlan.component_id p
    /\ let MOQ := Component.minimum_order_quantity c in
       let headroom :=
         (Component.max_stock_level c - Component.current_inventory c)%float
       in
       (0 <? MOQ)%float = true ->
       (0 <? MRPPlan.net_requirement p)%float = true ->
       exists lots,
         ceil (Prim2SF (MRPPlan.net_requirement p / MOQ)) = inr lots
         /\ 0 <= lots
         /\ let rounded := (float_of_int lots * MOQ)%float in
            ((0 <? Component.max_stock_level c)%float = false
             \/ (headroom <? rounded)%float = false ->
             MRPPlan.order_quantity p = rounded)
            /\ ((0 <? Component.max_stock_level c)%float = true ->
                (headroom <? rounded)%float = true ->
                (0 <=? headroom)%float = true ->
                MRPPlan.order_quantity p = headroom).
Proof.
  intros Hrun Hin Hoid.
  destruct (generated_plan_component _ _ _ _ _ _ _ Hrun Hin Hoid)
    as (c & q & Hc & Hid & _ & _ & Hq & Hoq & _).
  exists c. split; [exact Hc |]. split; [exact Hid |].
  intros MOQ headroom Hmoq Hnet.
  rewrite (moq_quantity_rounds _ _ Hmoq Hnet) in Hq. fold MOQ in Hq.
  destruct (ceil (Prim2SF (MRPPlan.net_requirement p / MOQ)))
    as [e | lots] eqn:Hlots; [discriminate Hq |].
  injection Hq as <-. exists lots. split; [reflexivity |].
  split; [exact (ceil_quotient_nonneg _ _ _ Hnet Hmoq Hlots) |].
  cbv zeta. split.
  - intros Hcap. rewrite Hoq. now apply max_stock_cap_id.
  - intros Hmax Hcut _. rewrite Hoq. now apply max_stock_cap_cut.
Qed.

Lemma generate_mrp_moq_multiple_witness :
  exists summary p d',
    run_request (generate_mrp 1) (fun _ => 0) moq_example
    = (MrpGenerated summary [p], d')
    /\ In p (mrp_plans d')
    /\ MRPPlan.order_id p = 1
    /\ MRPPlan.net_requirement p = 150%float
    /\ MRPPlan.order_quantity p = 200%float
    /\ exists c,
         In c (components moq_example)
         /\ Component.id c = MRPPlan.component_id p
         /\ ((0 <? Component.minimum_order_quantity c)%float = true ->
             (0 <? MRPPlan.net_requirement p)%float = true ->
             exists lots,
               ceil (Prim2SF (MRPPlan.net_requirement p
                              / Component.minimum_order_quantity c))
               = inr lots
               /\ 0 <= lots
               /\ ((0 <? Component.max_stock_level c)%float = false
                   \/ (Component.max_stock_level c
                       - Component.current_inventory c
                       <? float_of_int lots
                          * Component.minimum_order_quantity c)%float
                      = false ->
                   MRPPlan.order_quantity p
                   = (float_of_int lots
                      * Component.minimum_order_quantity c)%float)
               /\ ((0 <? Component.max_stock_level c)%float = true ->
                   (Component.max_stock_level c
                    - Component.current_inventory c
                    <? float_of_int lots
                       * Component.minimum_order_quantity c)%float
                   = true ->
                   (0 <=? Component.max_stock_level c
                          - Component.current_inventory c)%float
                   = true ->
                   MRPPlan.order_quantity p
                   = (Component.max_stock_level c
                      - Component.current_inventory c)%float)).
Proof.
  eexists _, _, _.
  split; [vm_compute; reflexivity |].
  split; [now left |]. split; [reflexivity |].
  split; [reflexivity |]. split; [reflexivity |].
  refine (generate_mrp_moq_multiple (fun _ => 0) moq_example _ 1 _ _ _
            _ _ _).
  - vm_compute; reflexivity.
  - now left.
  - reflexivity.
Defined.

(** ** Status updates and receipts *)

Lemma query_get_pk {A : Type} (pk : A -> Z) (tbl : list A) (k : Z) (r : A) :
  query_get pk tbl k = Some r -> pk r = k.
Proof.
  unfold query_get. intros H. apply find_some in H.
  now apply Z.eqb_eq.
Qed.



(** Every path through the handler, with the database it leaves. *)
Lemma update_mrp_status_cases (clk : nat -> datetime) (d : Db)
    (plan_id : Z) (data_status : option string) :
  match query_get MRPPlan.id (mrp_plans d) plan_id with
  | None =>
      run_request (update_mrp_status plan_id data_status) clk d
      = (NotFound, d)
  | Some plan0 =>
  let plan :=
    MRPPlan.set_status plan0 (default (MRPPlan.status plan0) data_status) in
  let d1 := with_mrp_plans d (save_row MRPPlan.id plan (mrp_plans d)) in
  if String.eqb (MRPPlan.status plan) "received" then
    match
      query_get Component.id (components d) (MRPPlan.component_id plan)
    with
    | Some c =>
        let c' :=
          Component.set_current_inventory c
            (Component.current_inventory c
             + MRPPlan.order_quantity plan)%float in
        run_request (update_mrp_status plan_id data_status) clk d
        = (PlanJson plan,
           with_inventory_transactions
             (with_components d1 (save_row Component.id c' (components d)))
             (inventory_transactions d ++ [receipt d plan c']))
    | None =>
        run_request (update_mrp_status plan_id data_status) clk d
        = (PlanJson plan, d1)
    end
  else
    run_request (update_mrp_status plan_id data_status) clk d
    = (PlanJson plan, d1)
  end.
Proof.
  unfold run_request, update_mrp_status, add_inventory_transaction.
  run_monad.
  destruct (query_get MRPPlan.id (mrp_plans d) plan_id) as [plan0 |];
    [| reflexivity].
  cbv zeta. run_monad.
  destruct (String.eqb _ "received"); run_monad; [| reflexivity].
  cbn [components with_mrp_plans].
  destruct (query_get Component.id (components d) _) as [c |];
    reflexivity.
Qed.









(** ** One plan per component *)

Lemma plan_of_component_ids (order_id : Z) (config : ProductionConfig.t)
    (production_start : datetime) (reqs : gmap Z float) (clk : nat -> datetime)
    (cs : list Component.t) (plans : list MRPPlan.t) :
  Forall2 (plan_of order_id config production_start reqs clk) cs plans ->
  List.map MRPPlan.component_id plans = List.map Component.id cs.
Proof.
  induction 1 as [| c p cs plans Hp _ IH]; [reflexivity |].
  cbn. now rewrite IH, (plan_component_id _ _ _ _ _ _ _ Hp).
Qed.

Lemma plans_of_order_generated (d : Db) (order_id : Z)
    (config : ProductionConfig.t) (production_start : datetime)
    (reqs : gmap Z float) (clk : nat -> datetime) (cs : list Component.t)
    (plans : list MRPPlan.t) :
  Forall2 (plan_of order_id config production_start reqs clk) cs plans ->
  List.filter (fun p => MRPPlan.order_id p =? order_id)
    (other_orders_plans d order_id ++ plans)
  = plans.
Proof.
  intros HF. rewrite List.filter_app.
  assert (H1 : List.filter (fun p => MRPPlan.order_id p =? order_id)
                 (other_orders_plans d order_id) = []).
  { unfold other_orders_plans.
    induction (mrp_plans d) as [| p l IH]; [reflexivity |].
    cbn. destruct (MRPPlan.order_id p =? order_id) eqn:E; cbn.
    - exact IH.
    - now rewrite E. }
  rewrite H1. cbn.
  induction HF as [| c p cs plans Hp _ IH]; [reflexivity |].
  cbn. rewrite (plan_order_id _ _ _ _ _ _ _ Hp), Z.eqb_refl.
  now rewrite IH.
Qed.

Lemma NoDup_map_filter {A : Type} (g : A -> Z) (f : A -> bool)
    (l : list A) :
  List.NoDup (List.map g l) -> List.NoDup (List.map g (List.filter f l)).
Proof.
  induction l as [| x l IH]; cbn; [constructor |].
  intros Hnd. apply NoDup_cons_iff in Hnd as [Hx Hnd].
  destruct (f x); cbn; [| now apply IH].
  apply NoDup_cons_iff. split; [| now apply IH].
  intros Hin. apply Hx. apply in_map_iff in Hin as (y & Hy & Hin).
  apply filter_In in Hin as [Hin _]. apply in_map_iff. now exists y.
Qed.

(** The part of C3 that the code keeps: after a successful generation, when
    the primary keys of the components are distinct, the stored plans of
    the order hold exactly one plan for every component that the exploded
    BOM references and that is in the table, and none for other
    components. *)
Lemma generate_mrp_one_plan_per_component (clk : nat -> datetime)
    (d d' : Db) (order_id : Z) (summary : Summary)
    (plans : list MRPPlan.t) (order : Order.t) (cid : Z) :
  run_request (generate_mrp order_id) clk d
  = (MrpGenerated summary plans, d') ->
  query_get Order.id (orders d) order_id = Some order ->
  List.NoDup (List.map Component.id (components d)) ->
  let plans_for_component :=
    count_occ Z.eq_dec
      (List.map MRPPlan.component_id
         (List.filter (fun p => MRPPlan.order_id p =? order_id)
            (mrp_plans d')))
      cid in
  (referenced d order cid
   /\ In cid (List.map Component.id (components d)) ->
   plans_for_component = 1%nat)
  /\ (~ (referenced d order cid
         /\ In cid (List.map Component.id (components d))) ->
      plans_for_component = 0%nat).
Proof.
  intros Hrun Horder Hnd.
  destruct (generate_mrp_generated _ _ _ _ _ _ Hrun)
    as (order' & config & configs & Horder' & _ & -> & HF & _).
  rewrite Horder in Horder'. injection Horder' as <-.
  cbn [mrp_plans with_mrp_plans].
  rewrite (plans_of_order_generated d _ _ _ _ _ _ _ HF).
  rewrite (plan_of_component_ids _ _ _ _ _ _ _ HF).
  assert (Hin : In cid (List.map Component.id
                          (planned_components d (explode_order d order)))
                <-> referenced d order cid
                    /\ In cid (List.map Component.id (components d))).
  { unfold planned_components. rewrite !in_map_iff. split.
    - intros (c & Hid & Hc). apply filter_In in Hc as [Hc Hdom].
      apply bool_decide_eq_true in Hdom.
      apply elem_of_elements, elem_of_dom in Hdom.
      rewrite Hid in Hdom. split; [now apply explode_order_is_Some |].
      now exists c.
    - intros [Href (c & Hid & Hc)]. exists c. split; [exact Hid |].
      apply filter_In. split; [exact Hc |].
      apply bool_decide_eq_true, elem_of_elements, elem_of_dom.
      rewrite Hid. now apply explode_order_is_Some. }
  split; intros E.
  - apply NoDup_count_occ'; [| now apply Hin].
    now apply NoDup_map_filter.
  - apply count_occ_not_In. now rewrite Hin.
Qed.

(** * Further properties of the routes *)

(** ** More on the working-day calendar *)

(** The count as a function of the whole days of the window. *)
Lemma calculate_working_days_days (start_date end_date : datetime) (W : Z) :
  calculate_working_days start_date end_date W
  = days (end_date - start_date) / 7 * W
    + Z.min (days (end_date - start_date) mod 7) W.
Proof. reflexivity. Qed.

Lemma week_count_monotone (n m W : Z) :
  0 <= W -> n <= m ->
  n / 7 * W + Z.min (n mod 7) W <= m / 7 * W + Z.min (m mod 7) W.
Proof.
  intros HW Hnm.
  pose proof (Z.div_mod n 7 ltac:(discriminate)) as Hn.
  pose proof (Z.div_mod m 7 ltac:(discriminate)) as Hm.
  pose proof (Z.mod_pos_bound n 7 ltac:(reflexivity)) as Hrn.
  pose proof (Z.mod_pos_bound m 7 ltac:(reflexivity)) as Hrm.
  destruct (Z.eq_dec (n / 7) (m / 7)) as [Heq | Hne].
  - rewrite Heq. lia.
  - assert (Hlt : n / 7 + 1 <= m / 7) by lia.
    assert (Hmul : (n / 7 + 1) * W <= m / 7 * W)
      by (apply Z.mul_le_mono_nonneg_r; assumption).
    lia.
Qed.

(** X1: with 7 working days a week, the working days of a window are its
    whole calendar days. *)
Theorem calculate_working_days_every_day (start_date end_date : datetime) :
  calculate_working_days start_date end_date 7
  = days (end_date - start_date).
Proof.
  rewrite calculate_working_days_days.
  pose proof (Z.div_mod (days (end_date - start_date)) 7
                ltac:(discriminate)) as Hd.
  pose proof (Z.mod_pos_bound (days (end_date - start_date)) 7
                ltac:(reflexivity)) as Hr.
  lia.
Qed.

(** X2: for 0 <= W <= 7 and an end date not before the start date, the
    working days are between 0 and the whole calendar days of the window. *)
Theorem calculate_working_days_bounds
    (start_date end_date : datetime) (W : Z) :
  0 <= W <= 7 ->
  start_date <= end_date ->
  0 <= calculate_working_days start_date end_date W
    <= days (end_date - start_date).
Proof.
  intros HW Hle. rewrite calculate_working_days_days.
  set (n := days (end_date - start_date)).
  assert (Hn : 0 <= n)
    by (apply Z.div_pos; [lia | reflexivity]).
  pose proof (Z.div_mod n 7 ltac:(discriminate)) as Hd.
  pose proof (Z.mod_pos_bound n 7 ltac:(reflexivity)) as Hr.
  assert (Hq : 0 <= n / 7) by (apply Z.div_pos; lia).
  split; nia.
Qed.

Lemma calculate_working_days_bounds_witness :
  0 <= 5 <= 7 /\ 0 <= timedelta_days 10
  /\ 0 <= calculate_working_days 0 (timedelta_days 10) 5
       <= days (timedelta_days 10 - 0).
Proof.
  assert (H1 : 0 <= 5 <= 7) by lia.
  assert (H2 : 0 <= timedelta_days 10) by discriminate.
  exact (conj H1 (conj H2
    (calculate_working_days_bounds 0 (timedelta_days 10) 5 H1 H2))).
Defined.

(** X3: for W >= 0, a later end date never gives fewer working days, and
    an earlier start date never gives fewer. *)
Theorem calculate_working_days_monotone
    (start1 start2 end1 end2 : datetime) (W : Z) :
  0 <= W ->
  start2 <= start1 -> end1 <= end2 ->
  calculate_working_days start1 end1 W
  <= calculate_working_days start2 end2 W.
Proof.
  intros HW Hs He. rewrite !calculate_working_days_days.
  apply week_count_monotone; [exact HW |].
  unfold days. apply Z.div_le_mono; [reflexivity | lia].
Qed.

Lemma calculate_working_days_monotone_witness :
  0 <= 6 /\ 0 <= timedelta_days 1
  /\ timedelta_days 9 <= timedelta_days 20
  /\ calculate_working_days (timedelta_days 1) (timedelta_days 9) 6
     <= calculate_working_days 0 (timedelta_days 20) 6.
Proof.
  assert (H1 : 0 <= 6) by lia.
  assert (H2 : 0 <= timedelta_days 1) by discriminate.
  assert (H3 : timedelta_days 9 <= timedelta_days 20) by discriminate.
  exact (conj H1 (conj H2 (conj H3
    (calculate_working_days_monotone (timedelta_days 1) 0 (timedelta_days 9)
       (timedelta_days 20) 6 H1 H2 H3)))).
Defined.

Lemma working_days_positive_iff
    (start_date end_date : datetime) (W : Z) :
  1 <= W ->
  0 < calculate_working_days start_date end_date W
  <-> start_date + us_per_day <= end_date.
Proof.
  intros HW. rewrite calculate_working_days_days.
  set (n := days (end_date - start_date)).
  assert (Hn : 0 < n <-> start_date + us_per_day <= end_date).
  { unfold n, days. split.
    - intros H.
      destruct (Z_lt_le_dec (end_date - start_date) us_per_day) as [Hlt | Hge];
        [| lia].
      assert (Hneg : (end_date - start_date) / us_per_day <= 0); [| lia].
      destruct (Z_lt_le_dec (end_date - start_date) 0) as [Hn | Hp].
      + pose proof (Z.div_lt_upper_bound (end_date - start_date) us_per_day 0
                      ltac:(reflexivity) ltac:(lia)).
        lia.
      + rewrite Z.div_small; lia.
    - intros H.
      apply Z.div_str_pos. split; [reflexivity | lia]. }
  rewrite <- Hn.
  pose proof (Z.div_mod n 7 ltac:(discriminate)) as Hd.
  pose proof (Z.mod_pos_bound n 7 ltac:(reflexivity)) as Hr.
  split.
  - intros Hpos.
    destruct (Z_lt_le_dec 0 n) as [H | H]; [exact H |].
    assert (Hq : n / 7 <= 0) by lia.
    destruct (Z.eq_dec (n / 7) 0) as [H0 | H0]; [rewrite H0 in *; lia |].
    assert (Hmul : n / 7 * W <= -1 * W)
      by (apply Z.mul_le_mono_nonneg_r; lia).
    lia.
  - intros Hpos.
    assert (Hq : 0 <= n / 7) by (apply Z.div_pos; lia).
    assert (Hmul : 0 <= n / 7 * W) by (apply Z.mul_nonneg_nonneg; lia).
    destruct (Z.eq_dec (n / 7) 0) as [H0 | H0]; [rewrite H0 in *; lia |].
    assert (Hmul1 : 1 * W <= n / 7 * W)
      by (apply Z.mul_le_mono_nonneg_r; lia).
    lia.
Qed.

(** X4: for W >= 1, there is a working day exactly when the window holds
    one whole day: the count is positive if and only if the end date is at
    least 24 hours after the start date. *)
Theorem calculate_working_days_positive
    (start_date end_date : datetime) (W : Z) :
  1 <= W ->
  0 < calculate_working_days start_date end_date W
  <-> start_date + us_per_day <= end_date.
Proof. apply working_days_positive_iff. Qed.

Lemma calculate_working_days_positive_witness :
  1 <= 6
  /\ (0 < calculate_working_days 0 (timedelta_days 1 - 1) 6
      <-> 0 + us_per_day <= timedelta_days 1 - 1).
Proof.
  assert (H1 : 1 <= 6) by lia.
  exact (conj H1
    (calculate_working_days_positive 0 (timedelta_days 1 - 1) 6 H1)).
Defined.

(** ** The float quotient of two positive integers *)

Lemma digits2_pos_size (p : positive) : digits2_pos p = Pos.size p.
Proof. induction p as [p IH | p IH |]; cbn; now rewrite ?IH. Qed.

Lemma Zdigits2_log2 (n : Z) : 0 < n -> Zdigits2 n = Z.log2 n + 1.
Proof.
  destruct n as [| p | p]; try discriminate. intros _.
  cbn [Zdigits2]. rewrite digits2_pos_size.
  destruct p as [p | p |]; cbn; lia.
Qed.

(** A positive number of [k] binary digits lies in [2^(k-1), 2^k). *)
Lemma Zdigits2_ge (n k : Z) : 0 < n -> 0 <= k -> 2 ^ k <= n -> k < Zdigits2 n.
Proof.
  intros Hn Hk H. rewrite Zdigits2_log2 by exact Hn.
  apply Z.log2_le_pow2 in H; lia.
Qed.

Lemma Zdigits2_le (n k : Z) : 0 < n -> n < 2 ^ k -> Zdigits2 n <= k.
Proof.
  intros Hn H. rewrite Zdigits2_log2 by exact Hn.
  apply Z.log2_lt_pow2 in H; lia.
Qed.

Lemma Zdigits2_lower (n : Z) : 0 < n -> 2 ^ (Zdigits2 n - 1) <= n.
Proof.
  intros Hn. rewrite Zdigits2_log2 by exact Hn.
  replace (Z.log2 n + 1 - 1) with (Z.log2 n) by lia.
  now apply Z.log2_spec.
Qed.

Lemma Zdigits2_upper (n : Z) : 0 < n -> n < 2 ^ Zdigits2 n.
Proof.
  intros Hn. rewrite Zdigits2_log2 by exact Hn.
  now apply Z.log2_spec.
Qed.

Lemma Zdigits2_pos (n : Z) : 0 <= n -> 0 < Zdigits2 n -> 0 < n.
Proof. destruct n; cbn; lia. Qed.

(** Shifting to the right drops one digit at a time and keeps the sign. *)
Lemma shr_1_digits (s : shr_record) :
  Zdigits2 (shr_m (shr_1 s)) = Z.max 0 (Zdigits2 (shr_m s) - 1).
Proof.
  destruct s as [m r s]. cbn [shr_1 shr_m].
  destruct m as [| [p | p |] | [p | p |]]; cbn; lia.
Qed.

Lemma shr_1_nonneg (s : shr_record) : 0 <= shr_m s -> 0 <= shr_m (shr_1 s).
Proof.
  destruct s as [m r s]. cbn [shr_1 shr_m].
  destruct m as [| [p | p |] | [p | p |]]; cbn; lia.
Qed.

Lemma iter_shr_1_digits (p : positive) :
  forall s : shr_record,
    Zdigits2 (shr_m (SpecFloat.iter_pos shr_1 p s))
    = Z.max 0 (Zdigits2 (shr_m s) - Z.pos p).
Proof.
  induction p as [p IH | p IH |]; intros s; cbn [SpecFloat.iter_pos].
  - rewrite !IH, shr_1_digits. lia.
  - rewrite !IH. lia.
  - apply shr_1_digits.
Qed.

Lemma iter_shr_1_nonneg (p : positive) :
  forall s : shr_record, 0 <= shr_m s -> 0 <= shr_m (SpecFloat.iter_pos shr_1 p s).
Proof.
  induction p as [p IH | p IH |]; intros s Hs; cbn [SpecFloat.iter_pos].
  - now apply IH, IH, shr_1_nonneg.
  - now apply IH, IH.
  - now apply shr_1_nonneg.
Qed.

Lemma shr_m_of_loc (m : Z) (l : location) : shr_m (shr_record_of_loc m l) = m.
Proof. now destruct l as [| []]. Qed.

(** A number of at least 53 digits whose exponent leaves it in the range
    of the normal floats is cut to 53 digits. *)
Lemma shr_fexp_normal (m e : Z) (l : location) :
  0 < m -> 53 <= Zdigits2 m -> -1074 <= e ->
  let r := shr_fexp prec emax m e l in
  0 < shr_m (fst r)
  /\ Zdigits2 (shr_m (fst r)) = 53
  /\ snd r = e + (Zdigits2 m - 53).
Proof.
  intros Hm Hd He. unfold shr_fexp, shr, fexp, emin, prec, emax.
  replace (Z.max (Zdigits2 m + e - 53) (3 - 1024 - 53) - e)
    with (Zdigits2 m - 53) by lia.
  destruct (Zdigits2 m - 53) as [| p | p] eqn:Hn; cbn [fst snd];
    rewrite ?shr_m_of_loc; [repeat split; lia | | lia].
  assert (H53 : Zdigits2 (shr_m (SpecFloat.iter_pos shr_1 p (shr_record_of_loc m l)))
                = 53)
    by (rewrite iter_shr_1_digits, shr_m_of_loc; lia).
  split; [| split; [exact H53 | reflexivity]].
  apply Zdigits2_pos; [| lia].
  apply iter_shr_1_nonneg. rewrite shr_m_of_loc. lia.
Qed.

Lemma round_nearest_even_digits (m : Z) (l : location) :
  0 < m -> Zdigits2 m = 53 ->
  0 < round_nearest_even m l
  /\ 53 <= Zdigits2 (round_nearest_even m l) <= 54.
Proof.
  intros Hm Hd.
  assert (H : round_nearest_even m l = m \/ round_nearest_even m l = m + 1).
  { unfold round_nearest_even. destruct l as [| []]; auto.
    destruct (Z.even m); auto. }
  pose proof (Zdigits2_lower m Hm) as Hlow.
  pose proof (Zdigits2_upper m Hm) as Hup. rewrite Hd in Hlow, Hup.
  destruct H as [-> | ->]; [lia |].
  split; [lia |]. split.
  - assert (52 < Zdigits2 (m + 1)); [| lia].
    apply Zdigits2_ge; lia.
  - apply Zdigits2_le; [lia |].
    change (2 ^ 54) with (2 * 2 ^ 53). lia.
Qed.

(** Rounding such a number gives a float that is a number: neither a zero
    nor an infinity. *)
Lemma binary_round_aux_finite (s : bool) (m e : Z) (l : location) :
  0 < m -> 53 <= Zdigits2 m -> -1074 <= e -> Zdigits2 m + e <= 1023 ->
  exists m' e', binary_round_aux prec emax s m e l = S754_finite s m' e'.
Proof.
  intros Hm Hd He Hmax. unfold binary_round_aux.
  pose proof (shr_fexp_normal m e l Hm Hd He) as H1.
  destruct (shr_fexp prec emax m e l) as [mrs1 e1].
  cbn [fst snd] in H1. destruct H1 as (Hm1 & Hd1 & He1).
  pose proof (round_nearest_even_digits (shr_m mrs1)
                (loc_of_shr_record mrs1) Hm1 Hd1) as [Hm2 Hd2].
  pose proof (shr_fexp_normal _ e1 loc_Exact Hm2 (proj1 Hd2)
                ltac:(lia)) as H3.
  destruct (shr_fexp prec emax _ e1 loc_Exact) as [mrs3 e3].
  cbn [fst snd] in H3. destruct H3 as (Hm3 & _ & He3).
  destruct (shr_m mrs3) as [| m3 | m3]; try lia.
  assert (Hle : (e3 <=? emax - prec) = true)
    by (apply Z.leb_le; unfold emax, prec; lia).
  rewrite Hle. now exists m3, e3.
Qed.

(** The quotient of two positive integers of at most 1000 digits has at
    least 53 digits at the exponent that the division chooses. *)
Lemma SFdiv_core_binary_digits (a b : positive) :
  Z.pos a < 2 ^ 1000 -> Z.pos b < 2 ^ 1000 ->
  let '(q, e, l) := SFdiv_core_binary prec emax (Z.pos a) 0 (Z.pos b) 0 in
  0 < q /\ 53 <= Zdigits2 q /\ -1074 <= e /\ Zdigits2 q + e <= 1023.
Proof.
  intros Ha Hb. unfold SFdiv_core_binary.
  set (d1 := Zdigits2 (Z.pos a)). set (d2 := Zdigits2 (Z.pos b)).
  assert (Hd1 : 1 <= d1 <= 1000).
  { split; [unfold d1; cbn; lia |].
    apply Zdigits2_le; [reflexivity | exact Ha]. }
  assert (Hd2 : 1 <= d2 <= 1000).
  { split; [unfold d2; cbn; lia |].
    apply Zdigits2_le; [reflexivity | exact Hb]. }
  pose proof (Zdigits2_lower (Z.pos a) eq_refl) as Halow. fold d1 in Halow.
  pose proof (Zdigits2_upper (Z.pos a) eq_refl) as Haup. fold d1 in Haup.
  pose proof (Zdigits2_lower (Z.pos b) eq_refl) as Hblow. fold d2 in Hblow.
  pose proof (Zdigits2_upper (Z.pos b) eq_refl) as Hbup. fold d2 in Hbup.
  replace (fexp prec emax (d1 + 0 - (d2 + 0))) with (d1 - d2 - 53)
    by (unfold fexp, emin, prec, emax; lia).
  replace (0 - 0) with 0 by reflexivity.
  destruct (Z_le_gt_dec (d1 - d2 - 53) 0) as [Hs | Hs].
  - (* the dividend is shifted to leave 53 or 54 digits *)
    rewrite Z.min_l by exact Hs.
    set (s := 0 - (d1 - d2 - 53)).
    assert (Hs0 : 0 <= s) by (unfold s; lia).
    set (m' := match s with
               | 0 => Z.pos a
               | Z.pos _ => Z.shiftl (Z.pos a) s
               | Z.neg _ => 0
               end).
    assert (Hm' : m' = Z.pos a * 2 ^ s).
    { unfold m'. destruct s as [| p | p] eqn:Es; [lia | | lia].
      now rewrite Z.shiftl_mul_pow2. }
    assert (Hp : 0 < 2 ^ s) by (apply Z.pow_pos_nonneg; lia).
    assert (Hlow : 2 ^ 52 * 2 ^ d2 <= m').
    { rewrite Hm', <- Z.pow_add_r by lia.
      replace (52 + d2) with (d1 - 1 + s) by (unfold s; lia).
      rewrite Z.pow_add_r by lia.
      apply Z.mul_le_mono_nonneg_r; lia. }
    assert (Hup : m' < 2 ^ 54 * 2 ^ (d2 - 1)).
    { rewrite Hm', <- Z.pow_add_r by lia.
      replace (54 + (d2 - 1)) with (d1 + s) by (unfold s; lia).
      rewrite Z.pow_add_r by lia.
      apply Z.mul_lt_mono_pos_r; lia. }
    assert (Hq : Z.div_eucl m' (Z.pos b) = (m' / Z.pos b, m' mod Z.pos b))
      by (unfold Z.div, Z.modulo; now destruct (Z.div_eucl m' (Z.pos b))).
    rewrite Hq.
    assert (Hq52 : 2 ^ 52 <= m' / Z.pos b).
    { apply Z.div_le_lower_bound; [reflexivity |].
      assert (Z.pos b * 2 ^ 52 <= 2 ^ d2 * 2 ^ 52)
        by (apply Z.mul_le_mono_nonneg_r; lia).
      lia. }
    assert (Hq54 : m' / Z.pos b < 2 ^ 54).
    { apply Z.div_lt_upper_bound; [reflexivity |].
      assert (2 ^ (d2 - 1) * 2 ^ 54 <= Z.pos b * 2 ^ 54)
        by (apply Z.mul_le_mono_nonneg_r; lia).
      lia. }
    assert (Hqpos : 0 < m' / Z.pos b) by lia.
    split; [exact Hqpos |].
    assert (H53 : 52 < Zdigits2 (m' / Z.pos b))
      by (apply Zdigits2_ge; lia).
    assert (H54 : Zdigits2 (m' / Z.pos b) <= 54)
      by (apply Zdigits2_le; lia).
    lia.
  - (* the quotient of the integers has more than 53 digits *)
    rewrite Z.min_r by lia. change (0 - 0) with 0. cbv iota.
    assert (Hq : Z.div_eucl (Z.pos a) (Z.pos b)
                 = (Z.pos a / Z.pos b, Z.pos a mod Z.pos b))
      by (unfold Z.div, Z.modulo;
          now destruct (Z.div_eucl (Z.pos a) (Z.pos b))).
    rewrite Hq.
    assert (Hq53 : 2 ^ 53 <= Z.pos a / Z.pos b).
    { apply Z.div_le_lower_bound; [reflexivity |].
      assert (H1 : Z.pos b * 2 ^ 53 <= 2 ^ d2 * 2 ^ 53)
        by (apply Z.mul_le_mono_nonneg_r; lia).
      assert (H2 : 2 ^ d2 * 2 ^ 53 <= 2 ^ (d1 - 1)).
      { rewrite <- Z.pow_add_r by lia. apply Z.pow_le_mono_r; lia. }
      lia. }
    assert (Hqa : Z.pos a / Z.pos b <= Z.pos a)
      by (apply Z.div_le_upper_bound; [reflexivity | nia]).
    assert (Hqpos : 0 < Z.pos a / Z.pos b) by lia.
    split; [exact Hqpos |].
    assert (H53 : 53 < Zdigits2 (Z.pos a / Z.pos b))
      by (apply Zdigits2_ge; lia).
    assert (Hd : Zdigits2 (Z.pos a / Z.pos b) <= d1)
      by (apply Zdigits2_le; lia).
    lia.
Qed.

Lemma ceil_positive (m : positive) (e k : Z) :
  ceil (S754_finite false m e) = inr k -> 0 < k.
Proof.
  cbn. intros [= <-]. destruct (0 <=? e) eqn:He.
  - apply Z.mul_pos_pos; [reflexivity |].
    apply Z.pow_pos_nonneg; [reflexivity | now apply Z.leb_le].
  - apply Z.leb_gt in He.
    assert (H : Z.neg m / 2 ^ (- e) < 0); [| cbn [Z.opp]; lia].
    apply Z.div_lt_upper_bound; [apply Z.pow_pos_nonneg; lia | lia].
Qed.

(** [math.ceil(a / b)] is at least 1 for positive integers below 2^1000:
    the quotient is neither rounded to zero nor too large for a float. *)
Lemma ceil_div_positive (a b : Z) :
  0 < a < 2 ^ 1000 -> 0 < b < 2 ^ 1000 ->
  exists k, ceil_div a b = inr k /\ 0 < k.
Proof.
  intros [Ha Ha'] [Hb Hb'].
  destruct a as [| a | a]; try discriminate.
  destruct b as [| b | b]; try discriminate.
  unfold ceil_div, true_div. cbn [Z.eqb int_spec SFdiv xorb].
  pose proof (SFdiv_core_binary_digits a b Ha' Hb') as H.
  destruct (SFdiv_core_binary prec emax (Z.pos a) 0 (Z.pos b) 0)
    as [[q e] l].
  destruct H as (Hq & Hd & He & Hmax).
  destruct (binary_round_aux_finite false q e l Hq Hd He Hmax)
    as (m' & e' & ->).
  cbn [mbind Exception_bind].
  destruct (ceil (S754_finite false m' e')) as [x | k] eqn:Hk;
    [discriminate Hk |].
  exists k. split; [reflexivity |]. exact (ceil_positive _ _ _ Hk).
Qed.

(** ** More on generate_mrp *)

Lemma explode_order_empty (d : Db) (o : Order.t) :
  size (explode_order d o) = 0%nat <-> forall cid, ~ referenced d o cid.
Proof.
  rewrite map_size_empty_iff. split.
  - intros Hempty cid Href. apply explode_order_is_Some in Href.
    rewrite Hempty, lookup_empty in Href. now destruct Href.
  - intros Hnone. apply map_empty. intros cid.
    destruct (explode_order d o !! cid) as [q |] eqn:E; [| reflexivity].
    exfalso. apply (Hnone cid). apply explode_order_is_Some. now exists q.
Qed.

(** X5: for an order and a configuration that exist, generate_mrp answers
    'Order has no horn types with components' exactly when no line item of
    the order has a product type with a BOM entry. *)
Theorem generate_mrp_empty_demand (clk : nat -> datetime) (d : Db)
    (order_id : Z) (order : Order.t) (config : ProductionConfig.t)
    (configs : list ProductionConfig.t) :
  query_get Order.id (orders d) order_id = Some order ->
  production_config d = config :: configs ->
  fst (run_request (generate_mrp order_id) clk d)
  = BadRequest
      "Order has no horn types with components. Add components to horn types first."
  <-> forall cid, ~ referenced d order cid.
Proof.
  intros Horder Hconfig. rewrite <- explode_order_empty.
  pose proof (generate_mrp_cases clk d order_id) as H.
  rewrite Horder, Hconfig in H. cbv zeta in H.
  destruct (size (explode_order d order) =? 0)%nat eqn:Hsize.
  - rewrite H. apply Nat.eqb_eq in Hsize. now split.
  - apply Nat.eqb_neq in Hsize as Hnz.
    split; [| contradiction]. intros Hr. exfalso.
    destruct (calculate_working_days _ _ _ <=? 0) eqn:Hwd;
      [rewrite H in Hr; discriminate Hr |].
    exact (generate_mrp_checked clk d order_id order config configs _
             Horder Hconfig Hsize Hwd Hr).
Qed.

Lemma generate_mrp_empty_demand_witness :
  query_get Order.id (orders empty_bom_example) 1
  = Some (Order.mk 1 (Some 0) (timedelta_days 30))
  /\ production_config empty_bom_example
     = [ProductionConfig.mk 1 4000 6 30 3]
  /\ (fst (run_request (generate_mrp 1) (fun _ => 0) empty_bom_example)
      = BadRequest
          "Order has no horn types with components. Add components to horn types first."
      <-> forall cid,
            ~ referenced empty_bom_example
                (Order.mk 1 (Some 0) (timedelta_days 30)) cid).
Proof.
  assert (H1 : query_get Order.id (orders empty_bom_example) 1
               = Some (Order.mk 1 (Some 0) (timedelta_days 30)))
    by reflexivity.
  assert (H2 : production_config empty_bom_example
               = [ProductionConfig.mk 1 4000 6 30 3])
    by reflexivity.
  exact (conj H1 (conj H2
    (generate_mrp_empty_demand (fun _ => 0) empty_bom_example 1 _ _ _
       H1 H2))).
Defined.

Lemma filter_order_of_others (order_id order_id' : Z)
    (l : list MRPPlan.t) :
  order_id' <> order_id ->
  List.filter (fun p => MRPPlan.order_id p =? order_id')
    (List.filter (fun p => negb (MRPPlan.order_id p =? order_id)) l)
  = List.filter (fun p => MRPPlan.order_id p =? order_id') l.
Proof.
  intros Hne. induction l as [| p l IH]; [reflexivity |].
  cbn. destruct (Z.eqb_spec (MRPPlan.order_id p) order_id) as [He | Hn];
    cbn.
  - destruct (Z.eqb_spec (MRPPlan.order_id p) order_id') as [He' | _];
      [congruence | exact IH].
  - now rewrite IH.
Qed.

Lemma filter_order_of_generated (order_id order_id' : Z)
    (config : ProductionConfig.t) (production_start : datetime)
    (reqs : gmap Z float) (clk : nat -> datetime) (cs : list Component.t)
    (plans : list MRPPlan.t) :
  Forall2 (plan_of order_id config production_start reqs clk) cs plans ->
  order_id' <> order_id ->
  List.filter (fun p => MRPPlan.order_id p =? order_id') plans = [].
Proof.
  intros HF Hne. induction HF as [| c p cs plans Hp _ IH]; [reflexivity |].
  cbn. rewrite (plan_order_id _ _ _ _ _ _ _ Hp).
  destruct (Z.eqb_spec order_id order_id') as [He | _]; [congruence |].
  exact IH.
Qed.

(** X6: whatever it answers, generate_mrp leaves every table but the plans
    as it was (no inventory is moved, no transaction is recorded), and the
    plans that get_mrp_plans returns for any other order are the same
    before and after. *)
Theorem generate_mrp_frame (clk clk' : nat -> datetime) (d : Db)
    (order_id : Z) :
  let d' := snd (run_request (generate_mrp order_id) clk d) in
  components d' = components d
  /\ horn_types d' = horn_types d
  /\ horn_type_components d' = horn_type_components d
  /\ orders d' = orders d
  /\ order_line_items d' = order_line_items d
  /\ production_config d' = production_config d
  /\ inventory_transactions d' = inventory_transactions d
  /\ forall order_id',
       order_id' <> order_id ->
       fst (run_request (get_mrp_plans order_id') clk' d')
       = fst (run_request (get_mrp_plans order_id') clk' d).
Proof.
  cbv zeta.
  destruct (generate_mrp_stored clk d order_id)
    as [[_ ->]
       | (order & config & configs & summary & plans & _ & _ & -> & HF
          & _)].
  - now repeat split.
  - cbn [snd]. repeat (split; [reflexivity |]).
    intros order_id' Hne. unfold run_request, get_mrp_plans. run_monad.
    cbn [mrp_plans with_mrp_plans]. rewrite List.filter_app.
    rewrite (filter_order_of_generated _ _ _ _ _ _ _ _ HF Hne), app_nil_r.
    now apply filter_order_of_others.
Qed.

(** X7: after a successful generation, get_mrp_plans for the order returns
    exactly the plans of the answer, in the same order. *)
Theorem generate_mrp_then_get_mrp_plans (clk clk' : nat -> datetime)
    (d d' : Db) (order_id : Z) (summary : Summary)
    (plans : list MRPPlan.t) :
  run_request (generate_mrp order_id) clk d
  = (MrpGenerated summary plans, d') ->
  run_request (get_mrp_plans order_id) clk' d' = (plans, d').
Proof.
  intros Hrun.
  destruct (generate_mrp_generated _ _ _ _ _ _ Hrun)
    as (order & config & configs & _ & _ & -> & HF & _).
  unfold run_request, get_mrp_plans. run_monad.
  cbn [mrp_plans with_mrp_plans].
  now rewrite (plans_of_order_generated d _ _ _ _ _ _ _ HF).
Qed.

Lemma generate_mrp_then_get_mrp_plans_witness :
  exists summary plans d',
    run_request (generate_mrp 1) (fun _ => timedelta_days 50)
      schedule_example
    = (MrpGenerated summary plans, d')
    /\ length plans = 2%nat
    /\ run_request (get_mrp_plans 1) (fun _ => 0) d' = (plans, d').
Proof.
  eexists _, _, _.
  split; [vm_compute; reflexivity |]. split; [reflexivity |].
  refine (generate_mrp_then_get_mrp_plans (fun _ => timedelta_days 50)
            (fun _ => 0) schedule_example _ 1 _ _ _).
  vm_compute; reflexivity.
Defined.

(** The planning loop works on the session: what is stored does not change
    what it builds. *)
Lemma plan_component_stored (order_id : Z) (config : ProductionConfig.t)
    (production_start : datetime) (reqs : gmap Z float) (c : Component.t)
    (w : World) (st : Db) :
  plan_component order_id config production_start reqs c (with_stored w st)
  = (fst (plan_component order_id config production_start reqs c w),
     with_stored
       (snd (plan_component order_id config production_start reqs c w)) st).
Proof.
  unfold plan_component, add_mrp_plan, with_stored.
  destruct (moq_quantity _ c); [reflexivity |]. run_monad.
  destruct (_ <? clock w (reads w)); reflexivity.
Qed.

Lemma plan_components_stored (order_id : Z) (config : ProductionConfig.t)
    (production_start : datetime) (reqs : gmap Z float)
    (cs : list Component.t) :
  forall (w : World) (st : Db),
    plan_components order_id config production_start reqs cs
      (with_stored w st)
    = (fst (plan_components order_id config production_start reqs cs w),
       with_stored
         (snd (plan_components order_id config production_start reqs cs w))
         st).
Proof.
  induction cs as [| c cs IH]; intros w st; [reflexivity |].
  cbn [plan_components]. unfold mbind, M_bind, mret, M_ret.
  rewrite plan_component_stored.
  destruct (plan_component order_id config production_start reqs c w)
    as [[e | p] w1]; [reflexivity |].
  cbn [fst snd]. rewrite IH.
  destruct (plan_components order_id config production_start reqs cs w1)
    as [[e | ps] w2]; reflexivity.
Qed.

(** Runs the planning loops of two requests whose sessions agree. *)
Ltac same_planning_loop d l order_id :=
  run_monad;
  change (with_mrp_plans (with_mrp_plans d l)
            (other_orders_plans d order_id))
    with (with_mrp_plans d (other_orders_plans d order_id));
  match goal with
  | |- context [plan_components ?a ?b ?c ?r ?f
                  (mkWorld ?s (with_mrp_plans d l) ?n ?k)] =>
      change (mkWorld s (with_mrp_plans d l) n k)
        with (with_stored (mkWorld s d n k) (with_mrp_plans d l));
      rewrite (plan_components_stored a b c r f);
      destruct (plan_components a b c r f (mkWorld s d n k)) as [[? | ?] ?]
  end;
  reflexivity.

(** A database that differs only in the plans of the order gives the same
    answer, and on success the same stored database. *)
Lemma generate_mrp_plans_of_order_irrelevant (clk : nat -> datetime)
    (d : Db) (order_id : Z) (l : list MRPPlan.t) :
  List.filter (fun p => negb (MRPPlan.order_id p =? order_id)) l
  = other_orders_plans d order_id ->
  run_request (generate_mrp order_id) clk (with_mrp_plans d l)
  = (fst (run_request (generate_mrp order_id) clk d),
     if is_generated (fst (run_request (generate_mrp order_id) clk d))
     then snd (run_request (generate_mrp order_id) clk d)
     else with_mrp_plans d l).
Proof.
  intros Hl. unfold run_request, generate_mrp. run_monad.
  cbn [orders production_config components mrp_plans with_mrp_plans].
  destruct (query_get Order.id (orders d) order_id) as [order |];
    [| reflexivity].
  destruct (production_config d) as [| config configs]; [reflexivity |].
  cbv zeta.
  change (explode_order (with_mrp_plans d l) order)
    with (explode_order d order).
  change (total_quantity (with_mrp_plans d l) order)
    with (total_quantity d order).
  destruct (size (explode_order d order) =? 0)%nat; [reflexivity |].
  run_monad. rewrite Hl. fold (other_orders_plans d order_id).
  destruct (Order.order_date order) as [t |]; run_monad.
  - destruct (calculate_working_days t _ _ <=? 0); [reflexivity |].
    destruct (ceil_div (total_quantity d order) _) as [e | daily];
      [reflexivity |].
    destruct (_ <? daily); [destruct (ceil_div _ _); reflexivity |].
    same_planning_loop d l order_id.
  - destruct (calculate_working_days (clk 0%nat) _ _ <=? 0);
      [reflexivity |].
    destruct (ceil_div (total_quantity d order) _) as [e | daily];
      [reflexivity |].
    destruct (_ <? daily); [destruct (ceil_div _ _); reflexivity |].
    same_planning_loop d l order_id.
Qed.

Lemma other_orders_plans_generated (d : Db) (order_id : Z)
    (config : ProductionConfig.t) (production_start : datetime)
    (reqs : gmap Z float) (clk : nat -> datetime) (cs : list Component.t)
    (plans : list MRPPlan.t) :
  Forall2 (plan_of order_id config production_start reqs clk) cs plans ->
  List.filter (fun p => negb (MRPPlan.order_id p =? order_id))
    (other_orders_plans d order_id ++ plans)
  = other_orders_plans d order_id.
Proof.
  intros HF. rewrite List.filter_app.
  assert (H1 : List.filter (fun p => negb (MRPPlan.order_id p =? order_id))
                 plans = []).
  { induction HF as [| c p cs plans Hp _ IH]; [reflexivity |].
    cbn. now rewrite (plan_order_id _ _ _ _ _ _ _ Hp), Z.eqb_refl. }
  rewrite H1, app_nil_r. unfold other_orders_plans.
  induction (mrp_plans d) as [| p l IH]; [reflexivity |].
  cbn. destruct (MRPPlan.order_id p =? order_id) eqn:E; cbn.
  - exact IH.
  - now rewrite E, IH.
Qed.

(** X8: regenerating is idempotent when the clock gives the same readings:
    after a successful generation, the same request on the resulting
    database gives the same answer, plans with the same keys included, and
    leaves the database as it is. *)
Theorem generate_mrp_idempotent (clk : nat -> datetime) (d d' : Db)
    (order_id : Z) (summary : Summary) (plans : list MRPPlan.t) :
  run_request (generate_mrp order_id) clk d
  = (MrpGenerated summary plans, d') ->
  run_request (generate_mrp order_id) clk d'
  = (MrpGenerated summary plans, d').
Proof.
  intros Hrun.
  destruct (generate_mrp_generated _ _ _ _ _ _ Hrun)
    as (order & config & configs & _ & _ & Hd' & HF & _).
  rewrite Hd' at 1.
  rewrite (generate_mrp_plans_of_order_irrelevant clk d order_id _
             (other_orders_plans_generated d _ _ _ _ _ _ _ HF)).
  now rewrite Hrun.
Qed.

Lemma generate_mrp_idempotent_witness :
  exists summary plans d',
    run_request (generate_mrp 1) (fun _ => timedelta_days 50)
      schedule_example
    = (MrpGenerated summary plans, d')
    /\ d' <> schedule_example
    /\ run_request (generate_mrp 1) (fun _ => timedelta_days 50) d'
       = (MrpGenerated summary plans, d').
Proof.
  eexists _, _, _.
  split; [vm_compute; reflexivity |]. split; [discriminate |].
  refine (generate_mrp_idempotent (fun _ => timedelta_days 50)
            schedule_example _ 1 _ _ _).
  vm_compute; reflexivity.
Defined.

(** The summary of a successful generation and the checks it passed. *)
Lemma generate_mrp_summary_of (clk : nat -> datetime) (d d' : Db)
    (order_id : Z) (summary : Summary) (plans : list MRPPlan.t)
    (order : Order.t) (config : ProductionConfig.t)
    (configs : list ProductionConfig.t) :
  run_request (generate_mrp order_id) clk d
  = (MrpGenerated summary plans, d') ->
  query_get Order.id (orders d) order_id = Some order ->
  production_config d = config :: configs ->
  let wd :=
    calculate_working_days (order_date_of clk order) (Order.deadline order)
      (ProductionConfig.working_days_per_week config) in
  exists daily,
    summary
    = mkSummary (total_quantity d order) wd daily
        (order_date_of clk order
         + timedelta_days (ProductionConfig.safety_stock_days config))
        (length (planned_components d (explode_order d order)))
        (length
           (List.filter (fun p => (0 <? MRPPlan.order_quantity p)%float)
              plans))
    /\ 0 < wd
    /\ required_daily d order wd = inr daily
    /\ daily <= ProductionConfig.daily_production_capacity config.
Proof.
  intros Hrun Horder Hconfig. cbv zeta.
  unfold run_request, generate_mrp in Hrun. run_monad.
  revert Hrun. run_monad. rewrite Horder, Hconfig. cbv zeta.
  destruct (size (explode_order d order) =? 0)%nat; [discriminate |].
  run_monad. unfold order_date_of, required_daily, planned_components.
  destruct (Order.order_date order) as [t |]; run_monad.
  - destruct (Z.leb_spec (calculate_working_days t (Order.deadline order)
                            (ProductionConfig.working_days_per_week config))
                0) as [_ | Hwd]; [discriminate |].
    destruct (ceil_div (total_quantity d order) _) as [e | daily];
      [discriminate |].
    destruct (Z.ltb_spec (ProductionConfig.daily_production_capacity config)
                daily)
      as [_ | Hcap]; [destruct (ceil_div _ _); discriminate |].
    run_monad. destruct (plan_components _ _ _ _ _ _) as [[e | ps] w1];
      [discriminate |].
    intros [= <- <- _]. exists daily. now repeat split.
  - destruct (Z.leb_spec (calculate_working_days (clk 0%nat)
                            (Order.deadline order)
                            (ProductionConfig.working_days_per_week config))
                0) as [_ | Hwd]; [discriminate |].
    destruct (ceil_div (total_quantity d order) _) as [e | daily];
      [discriminate |].
    destruct (Z.ltb_spec (ProductionConfig.daily_production_capacity config)
                daily)
      as [_ | Hcap]; [destruct (ceil_div _ _); discriminate |].
    run_monad. destruct (plan_components _ _ _ _ _ _) as [[e | ps] w1];
      [discriminate |].
    intros [= <- <- _]. exists daily. now repeat split.
Qed.

(** X9: the summary of a successful generation reports the order's total
    quantity, at least one working day, and a daily production that is
    [math.ceil] of the float quotient of the total quantity by the working
    days, that is within the configured capacity, and that is at least 1
    when the total quantity is positive (for quantities below 2^1000); it
    counts one component per plan, and the components to order are the
    plans with an order quantity > 0, no more than the plans. *)
Theorem generate_mrp_summary (clk : nat -> datetime) (d d' : Db)
    (order_id : Z) (summary : Summary) (plans : list MRPPlan.t)
    (order : Order.t) (config : ProductionConfig.t)
    (configs : list ProductionConfig.t) :
  run_request (generate_mrp order_id) clk d
  = (MrpGenerated summary plans, d') ->
  query_get Order.id (orders d) order_id = Some order ->
  production_config d = config :: configs ->
  summary_order_quantity summary = total_quantity d order
  /\ 1 <= summary_working_days summary
  /\ ceil_div (total_quantity d order) (summary_working_days summary)
     = inr (summary_daily_production summary)
  /\ summary_daily_production summary
     <= ProductionConfig.daily_production_capacity config
  /\ (0 < total_quantity d order < 2 ^ 1000 ->
      summary_working_days summary < 2 ^ 1000 ->
      1 <= summary_daily_production summary)
  /\ summary_total_components summary = length plans
  /\ summary_components_to_order summary
     = length
         (List.filter (fun p => (0 <? MRPPlan.order_quantity p)%float)
            plans)
  /\ (summary_components_to_order summary
      <= summary_total_components summary)%nat.
Proof.
  intros Hrun Horder Hconfig.
  destruct (generate_mrp_summary_of _ _ _ _ _ _ _ _ _ Hrun Horder Hconfig)
    as (daily & -> & Hwd & Hdaily & Hcap).
  destruct (generate_mrp_generated _ _ _ _ _ _ Hrun)
    as (order' & config' & configs' & Horder' & Hconfig' & _ & HF & _).
  rewrite Horder in Horder'. injection Horder' as <-.
  rewrite Hconfig in Hconfig'. injection Hconfig' as <- <-.
  cbn [summary_order_quantity summary_working_days summary_daily_production
       summary_total_components summary_components_to_order].
  pose proof (Forall2_length _ _ _ HF) as Hlen.
  split; [reflexivity |]. split; [lia |]. split; [exact Hdaily |].
  split; [exact Hcap |]. split.
  { intros HQ Hwd'.
    destruct (ceil_div_positive (total_quantity d order) _ HQ
                (conj Hwd Hwd')) as (k & Hk & Hpos).
    unfold required_daily in Hdaily. rewrite Hdaily in Hk.
    injection Hk as ->. lia. }
  split; [exact Hlen |]. split; [reflexivity |].
  rewrite Hlen. apply List.filter_length_le.
Qed.

Lemma generate_mrp_summary_witness :
  exists summary plans d',
    run_request (generate_mrp 1) (fun _ => timedelta_days 50)
      schedule_example
    = (MrpGenerated summary plans, d')
    /\ summary_order_quantity summary = 100
    /\ 1 <= summary_working_days summary
    /\ ceil_div 100 (summary_working_days summary)
       = inr (summary_daily_production summary)
    /\ summary_daily_production summary <= 4000
    /\ (0 < 100 < 2 ^ 1000 ->
        summary_working_days summary < 2 ^ 1000 ->
        1 <= summary_daily_production summary)
    /\ summary_total_components summary = length plans
    /\ summary_components_to_order summary
       = length
           (List.filter (fun p => (0 <? MRPPlan.order_quantity p)%float)
              plans)
    /\ (summary_components_to_order summary
        <= summary_total_components summary)%nat.
Proof.
  eexists _, _, _.
  split; [vm_compute; reflexivity |].
  refine (generate_mrp_summary (fun _ => timedelta_days 50)
            schedule_example _ 1 _ _
            (Order.mk 1 (Some (timedelta_days 100)) (timedelta_days 130))
            (ProductionConfig.mk 1 4000 6 30 3) [] _ _ _).
  - vm_compute; reflexivity.
  - reflexivity.
  - reflexivity.
Defined.

(** X10: every stored plan of a successful generation keeps the stock of
    its component as it was read, has a net requirement that is never
    negative and never a NaN: total_required - current_inventory when that
    float difference is > 0 and 0 otherwise; its estimated cost is the
    float product of the order quantity and the unit cost; and when the
    component has no minimum order quantity > 0 and the maximum stock
    level does not cut (it is not > 0, or the net requirement is not
    greater than max_stock_level - current_inventory), the order quantity
    is the net requirement. *)
Theorem generate_mrp_net_requirement (clk : nat -> datetime) (d d' : Db)
    (order_id : Z) (summary : Summary) (plans : list MRPPlan.t)
    (p : MRPPlan.t) :
  run_request (generate_mrp order_id) clk d
  = (MrpGenerated summary plans, d') ->
  In p (mrp_plans d') -> MRPPlan.order_id p = order_id ->
  exists c,
    In c (components d)
    /\ Component.id c = MRPPlan.component_id p
    /\ MRPPlan.current_inventory p = Component.current_inventory c
    /\ (0 <=? MRPPlan.net_requirement p)%float = true
    /\ (let need :=
          (MRPPlan.total_required p - MRPPlan.current_inventory p)%float in
        MRPPlan.net_requirement p
        = if (0 <? need)%float then need else 0%float)
    /\ MRPPlan.estimated_cost p
       = (MRPPlan.order_quantity p * Component.unit_cost c)%float
    /\ ((0 <? Component.minimum_order_quantity c)%float = false ->
        (0 <? Component.max_stock_level c)%float = false
        \/ (Component.max_stock_level c - Component.current_inventory c
            <? MRPPlan.net_requirement p)%float
           = false ->
        MRPPlan.order_quantity p = MRPPlan.net_requirement p).
Proof.
  intros Hrun Hin Hoid.
  destruct (generated_plan_component _ _ _ _ _ _ _ Hrun Hin Hoid)
    as (c & q & Hc & Hid & Hinv & Hnet & Hq & Hoq & Hcost).
  exists c. split; [exact Hc |]. split; [exact Hid |].
  split; [exact Hinv |].
  split; [rewrite Hnet; apply max0_nonneg |].
  split; [exact Hnet |]. split; [exact Hcost |].
  intros Hmoq Hcap.
  assert (Hqnet : q = MRPPlan.net_requirement p).
  { destruct (0 <? MRPPlan.net_requirement p)%float eqn:Hpos.
    - rewrite (moq_quantity_no_moq _ _ Hmoq Hpos) in Hq. now injection Hq.
    - rewrite (moq_quantity_zero _ _ Hpos) in Hq. injection Hq as <-.
      rewrite Hnet in Hpos |- *. unfold max0 in Hpos |- *.
      destruct (0 <? _ - _)%float eqn:E; [congruence | reflexivity]. }
  rewrite Hoq, Hqnet. now apply max_stock_cap_id.
Qed.

Lemma generate_mrp_net_requirement_witness :
  exists summary p d',
    run_request (generate_mrp 1) (fun _ => 0) receipt_example
    = (MrpGenerated summary [p], d')
    /\ In p (mrp_plans d')
    /\ MRPPlan.order_id p = 1
    /\ MRPPlan.net_requirement p = 500%float
    /\ MRPPlan.order_quantity p = 500%float
    /\ exists c,
         In c (components receipt_example)
         /\ Component.id c = MRPPlan.component_id p
         /\ MRPPlan.current_inventory p = Component.current_inventory c
         /\ (0 <=? MRPPlan.net_requirement p)%float = true
         /\ MRPPlan.net_requirement p
            = (if (0 <? MRPPlan.total_required p
                        - MRPPlan.current_inventory p)%float
               then (MRPPlan.total_required p
                     - MRPPlan.current_inventory p)%float
               else 0%float)
         /\ MRPPlan.estimated_cost p
            = (MRPPlan.order_quantity p * Component.unit_cost c)%float
         /\ ((0 <? Component.minimum_order_quantity c)%float = false ->
             (0 <? Component.max_stock_level c)%float = false
             \/ (Component.max_stock_level c
                 - Component.current_inventory c
                 <? MRPPlan.net_requirement p)%float
                = false ->
             MRPPlan.order_quantity p = MRPPlan.net_requirement p).
Proof.
  eexists _, _, _.
  split; [vm_compute; reflexivity |].
  split; [now left |]. split; [reflexivity |].
  split; [reflexivity |]. split; [reflexivity |].
  refine (generate_mrp_net_requirement (fun _ => 0) receipt_example _ 1 _ _
            _ _ _ _).
  - vm_compute; reflexivity.
  - now left.
  - reflexivity.
Defined.

(** X11: for an order with an order date O, exploded demand and a
    configuration with at least one working day a week, generate_mrp
    answers 'Invalid deadline' exactly when the deadline is less than 24
    hours after O. *)
Theorem generate_mrp_invalid_deadline (clk : nat -> datetime) (d : Db)
    (order_id : Z) (order : Order.t) (O : datetime)
    (config : ProductionConfig.t) (configs : list ProductionConfig.t) :
  query_get Order.id (orders d) order_id = Some order ->
  Order.order_date order = Some O ->
  production_config d = config :: configs ->
  size (explode_order d order) <> 0%nat ->
  1 <= ProductionConfig.working_days_per_week config ->
  fst (run_request (generate_mrp order_id) clk d)
  = BadRequest "Invalid deadline - not enough working days"
  <-> Order.deadline order < O + us_per_day.
Proof.
  intros Horder HO Hconfig Hsize HW.
  pose proof (generate_mrp_cases clk d order_id) as H.
  pose proof (generate_mrp_checked clk d order_id order config configs
                "Invalid deadline - not enough working days" Horder Hconfig)
    as Hchecked.
  rewrite Horder, Hconfig in H. cbv zeta in H.
  apply Nat.eqb_neq in Hsize. rewrite Hsize in H.
  unfold order_date_of in H, Hchecked. rewrite HO in H, Hchecked.
  pose proof (working_days_positive_iff O (Order.deadline order) _ HW)
    as Hpos.
  destruct (Z.leb_spec
              (calculate_working_days O (Order.deadline order)
                 (ProductionConfig.working_days_per_week config)) 0)
    as [Hle | Hgt].
  - rewrite H. split; [intros _; lia | reflexivity].
  - split; [| lia]. intros Hr. exfalso.
    now apply (Hchecked Hsize eq_refl).
Qed.

Lemma generate_mrp_invalid_deadline_witness :
  query_get Order.id (orders late_example) 1
  = Some (Order.mk 1 (Some (timedelta_days 30)) (timedelta_days 20))
  /\ production_config late_example = [ProductionConfig.mk 1 4000 6 30 3]
  /\ (fst (run_request (generate_mrp 1) (fun _ => 0) late_example)
      = BadRequest "Invalid deadline - not enough working days"
      <-> timedelta_days 20 < timedelta_days 30 + us_per_day).
Proof.
  pose (o := Order.mk 1 (Some (timedelta_days 30)) (timedelta_days 20)).
  pose (c := ProductionConfig.mk 1 4000 6 30 3).
  assert (H1 : query_get Order.id (orders late_example) 1 = Some o)
    by reflexivity.
  assert (H2 : Order.order_date o = Some (timedelta_days 30))
    by reflexivity.
  assert (H3 : production_config late_example = [c]) by reflexivity.
  assert (H4 : size (explode_order late_example o) <> 0%nat)
    by (vm_compute; discriminate).
  assert (H5 : 1 <= ProductionConfig.working_days_per_week c)
    by discriminate.
  exact (conj H1 (conj H3
    (generate_mrp_invalid_deadline (fun _ => 0) late_example 1 o _ c []
       H1 H2 H3 H4 H5))).
Defined.

(** X12: with a configured capacity of 0, an order with exploded demand, a
    positive total quantity and at least one working day is not answered:
    the division by the capacity raises, and nothing is stored.  The total
    quantity and the working days are below 2^1000, so that their float
    quotient is a positive number. *)
Theorem generate_mrp_zero_capacity (clk : nat -> datetime) (d : Db)
    (order_id : Z) (order : Order.t) (config : ProductionConfig.t)
    (configs : list ProductionConfig.t) :
  query_get Order.id (orders d) order_id = Some order ->
  production_config d = config :: configs ->
  size (explode_order d order) <> 0%nat ->
  0 < calculate_working_days (order_date_of clk order)
        (Order.deadline order)
        (ProductionConfig.working_days_per_week config)
    < 2 ^ 1000 ->
  0 < total_quantity d order < 2 ^ 1000 ->
  ProductionConfig.daily_production_capacity config = 0 ->
  run_request (generate_mrp order_id) clk d
  = (Raised ZeroDivisionError, d).
Proof.
  intros Horder Hconfig Hsize Hwd HQ Hcap.
  pose proof (generate_mrp_cases clk d order_id) as H.
  rewrite Horder, Hconfig in H. cbv zeta in H.
  apply Nat.eqb_neq in Hsize. rewrite Hsize in H.
  destruct (ceil_div_positive _ _ HQ Hwd) as (daily & Hdaily & Hpos).
  destruct Hwd as [Hwd _].
  apply Z.leb_gt in Hwd. rewrite Hwd in H.
  unfold required_daily in H. rewrite Hdaily, Hcap in H.
  apply Z.ltb_lt in Hpos. now rewrite Hpos in H.
Qed.

Lemma generate_mrp_zero_capacity_witness :
  query_get Order.id (orders zero_capacity_example) 1
  = Some (Order.mk 1 (Some 0) (timedelta_days 30))
  /\ 0 < total_quantity zero_capacity_example
          (Order.mk 1 (Some 0) (timedelta_days 30))
       < 2 ^ 1000
  /\ run_request (generate_mrp 1) (fun _ => 0) zero_capacity_example
     = (Raised ZeroDivisionError, zero_capacity_example).
Proof.
  pose (d := zero_capacity_example).
  pose (o := Order.mk 1 (Some 0) (timedelta_days 30)).
  pose (c := ProductionConfig.mk 1 0 6 30 3).
  assert (H1 : query_get Order.id (orders d) 1 = Some o) by reflexivity.
  assert (H2 : production_config d = [c]) by reflexivity.
  assert (H3 : size (explode_order d o) <> 0%nat)
    by (vm_compute; discriminate).
  assert (H4 : 0 < calculate_working_days (order_date_of (fun _ => 0) o)
                     (Order.deadline o)
                     (ProductionConfig.working_days_per_week c)
               < 2 ^ 1000)
    by (split; reflexivity).
  assert (H5 : 0 < total_quantity d o < 2 ^ 1000) by (split; reflexivity).
  assert (H6 : ProductionConfig.daily_production_capacity c = 0)
    by reflexivity.
  exact (conj H1 (conj H5
    (generate_mrp_zero_capacity (fun _ => 0) d 1 o c [] H1 H2 H3 H4 H5 H6))).
Defined.

(** ** More on update_mrp_status *)





(** ** adjust_inventory *)

(** Every path through the handler, with the database it leaves. *)
Lemma adjust_inventory_cases (clk : nat -> datetime) (d : Db)
    (data : AdjustData) :
  match adjust_component_id data with
  | None => run_request (adjust_inventory data) clk d = (AdjustKeyError, d)
  | Some cid =>
  match query_get Component.id (components d) cid with
  | None => run_request (adjust_inventory data) clk d = (AdjustNotFound, d)
  | Some c =>
  match adjust_quantity data with
  | None => run_request (adjust_inventory data) clk d = (AdjustKeyError, d)
  | Some q =>
      let c' :=
        Component.set_current_inventory c
          (Component.current_inventory c + q)%float in
      let tx :=
        InventoryTransaction.mk
          (fresh_id InventoryTransaction.id (inventory_transactions d))
          (Component.id c) "adjustment" q (Component.current_inventory c')
          (default ""%string (adjust_reference data))
          (default ""%string (adjust_notes data)) in
      run_request (adjust_inventory data) clk d
      = (Adjusted c' tx,
         with_inventory_transactions
           (with_components d (save_row Component.id c' (components d)))
           (inventory_transactions d ++ [tx]))
  end end end.
Proof.
  unfold run_request, adjust_inventory. run_monad.
  destruct (adjust_component_id data) as [cid |]; [| reflexivity].
  run_monad.
  destruct (query_get Component.id (components d) cid) as [c |];
    [| reflexivity].
  destruct (adjust_quantity data) as [q |]; reflexivity.
Qed.




(** X16: a request that is not carried out (no component_id or quantity in
    the body, or an unknown component) changes nothing. *)
Theorem adjust_inventory_all_or_nothing (clk : nat -> datetime) (d : Db)
    (data : AdjustData) :
  is_adjusted (fst (run_request (adjust_inventory data) clk d)) = false ->
  snd (run_request (adjust_inventory data) clk d) = d.
Proof.
  pose proof (adjust_inventory_cases clk d data) as H.
  destruct (adjust_component_id data) as [cid |]; [| now rewrite H].
  destruct (query_get Component.id (components d) cid) as [c |];
    [| now rewrite H].
  destruct (adjust_quantity data) as [q |]; [| now rewrite H].
  cbv zeta in H. rewrite H. discriminate.
Qed.

Lemma adjust_inventory_all_or_nothing_witness :
  is_adjusted
    (fst (run_request
            (adjust_inventory (mkAdjustData (Some 7) (Some 5%float) None None))
            (fun _ => 0) ledger_example))
  = false
  /\ snd (run_request
            (adjust_inventory (mkAdjustData (Some 7) (Some 5%float) None None))
            (fun _ => 0) ledger_example)
     = ledger_example.
Proof.
  assert (H1 : is_adjusted
                 (fst (run_request
                         (adjust_inventory
                            (mkAdjustData (Some 7) (Some 5%float) None None))
                         (fun _ => 0) ledger_example))
               = false) by reflexivity.
  exact (conj H1
    (adjust_inventory_all_or_nothing (fun _ => 0) ledger_example _ H1)).
Defined.

(** ** The ledger and the stock *)

Lemma In_save_row {A : Type} (pk : A -> Z) (row r : A) (tbl : list A) :
  In r (save_row pk row tbl) ->
  r = row \/ (In r tbl /\ pk r <> pk row).
Proof.
  unfold save_row. rewrite in_map_iff. intros (x & Hx & Hin).
  destruct (Z.eqb_spec (pk x) (pk row)) as [He | Hne].
  - now left.
  - right. subst r. now split.
Qed.

Lemma last_balance_app (txs : list InventoryTransaction.t)
    (tx : InventoryTransaction.t) (cid : Z) :
  last_balance (txs ++ [tx]) cid
  = if InventoryTransaction.component_id tx =? cid
    then Some (InventoryTransaction.balance_after tx)
    else last_balance txs cid.
Proof.
  unfold last_balance. rewrite rev_app_distr. cbn.
  now destruct (InventoryTransaction.component_id tx =? cid).
Qed.

(** Saving a component together with a transaction that records its new
    inventory keeps the ledger and the stock in agreement. *)
Lemma ledger_consistent_post (d0 d : Db) (c' : Component.t)
    (tx : InventoryTransaction.t) :
  ledger_consistent d ->
  InventoryTransaction.component_id tx = Component.id c' ->
  InventoryTransaction.balance_after tx = Component.current_inventory c' ->
  ledger_consistent
    (with_inventory_transactions
       (with_components d0 (save_row Component.id c' (components d)))
       (inventory_transactions d ++ [tx])).
Proof.
  intros Hled Hcid Hbal c b.
  cbn [components inventory_transactions with_inventory_transactions
       with_components].
  intros Hin. rewrite last_balance_app, Hcid.
  destruct (In_save_row _ _ _ _ Hin) as [-> | [Hin' Hne]].
  - rewrite Z.eqb_refl. intros [= <-]. exact Hbal.
  - destruct (Z.eqb_spec (Component.id c') (Component.id c)) as [He | _];
      [congruence |].
    now apply Hled.
Qed.

Lemma ledger_example_consistent : ledger_consistent ledger_example.
Proof.
  intros c b [<- | [<- | []]]; cbn; [| discriminate].
  now intros [= <-].
Qed.

(** X18: adjust_inventory keeps the ledger and the stock in agreement: if
    the balance after the latest transaction of every component is its
    inventory before the request, it is so after it. *)
Theorem adjust_inventory_ledger (clk : nat -> datetime) (d : Db)
    (data : AdjustData) :
  ledger_consistent d ->
  ledger_consistent (snd (run_request (adjust_inventory data) clk d)).
Proof.
  intros Hled.
  pose proof (adjust_inventory_cases clk d data) as H.
  destruct (adjust_component_id data) as [cid |]; [| now rewrite H].
  destruct (query_get Component.id (components d) cid) as [c |];
    [| now rewrite H].
  destruct (adjust_quantity data) as [q |]; [| now rewrite H].
  cbv zeta in H. rewrite H. cbn [snd].
  now apply ledger_consistent_post.
Qed.

Lemma adjust_inventory_ledger_witness :
  ledger_consistent ledger_example
  /\ ledger_consistent
       (snd (run_request
               (adjust_inventory
                  (mkAdjustData (Some 1) (Some 30%float) None None))
               (fun _ => 0) ledger_example)).
Proof.
  exact (conj ledger_example_consistent
    (adjust_inventory_ledger (fun _ => 0) ledger_example
       (mkAdjustData (Some 1) (Some 30%float) None None)
       ledger_example_consistent)).
Defined.

(** X19: update_mrp_status keeps the ledger and the stock in agreement,
    whatever status it stores. *)
Theorem update_mrp_status_ledger (clk : nat -> datetime) (d : Db)
    (plan_id : Z) (data_status : option string) :
  ledger_consistent d ->
  ledger_consistent
    (snd (run_request (update_mrp_status plan_id data_status) clk d)).
Proof.
  intros Hled.
  pose proof (update_mrp_status_cases clk d plan_id data_status) as H.
  destruct (query_get MRPPlan.id (mrp_plans d) plan_id) as [plan0 |];
    [| now rewrite H].
  cbv zeta in H.
  destruct (String.eqb _ "received").
  - destruct (query_get Component.id (components d) _) as [c |].
    + rewrite H. cbn [snd]. now apply ledger_consistent_post.
    + rewrite H. exact Hled.
  - rewrite H. exact Hled.
Qed.

Lemma update_mrp_status_ledger_witness :
  ledger_consistent ledger_example
  /\ ledger_consistent
       (snd (run_request (update_mrp_status 1 (Some "received"%string))
               (fun _ => 0) ledger_example)).
Proof.
  exact (conj ledger_example_consistent
    (update_mrp_status_ledger (fun _ => 0) ledger_example 1
       (Some "received"%string) ledger_example_consistent)).
Defined.

(** ** The production configuration *)

(** X20: get_production_config answers with the first configuration and
    changes nothing when there is one; when there is none it stores the
    configuration 4000 a day, 6 days a week, 30 and 3 days and answers with
    it; in both cases asking again gives the same answer and changes
    nothing. *)
Theorem get_production_config_get_or_create (clk clk' : nat -> datetime)
    (d : Db) :
  let config := fst (run_request get_production_config clk d) in
  let d' := snd (run_request get_production_config clk d) in
  (forall c cs, production_config d = c :: cs -> config = c /\ d' = d)
  /\ (production_config d = [] ->
      production_config d' = [config]
      /\ ProductionConfig.daily_production_capacity config = 4000
      /\ ProductionConfig.working_days_per_week config = 6
      /\ ProductionConfig.max_inventory_days config = 30
      /\ ProductionConfig.safety_stock_days config = 3
      /\ d' = with_production_config d [config])
  /\ run_request get_production_config clk' d' = (config, d').
Proof.
  cbv zeta. unfold run_request, get_production_config, add_production_config.
  run_monad. destruct (production_config d) as [| c cs] eqn:Hcfg.
  - run_monad. rewrite Hcfg. cbn.
    split; [intros c cs [=] |]. now repeat split.
  - cbn. rewrite Hcfg. split; [| split; [intros [=] | reflexivity]].
    intros c0 cs0 [= <- <-]. now split.
Qed.

Lemma get_production_config_exists (clk : nat -> datetime) (d : Db) :
  exists c cs,
    production_config (snd (run_request get_production_config clk d))
    = c :: cs.
Proof.
  unfold run_request, get_production_config, add_production_config.
  run_monad. destruct (production_config d) as [| c cs] eqn:Hcfg.
  - run_monad. rewrite Hcfg. cbn. eauto.
  - cbn. rewrite Hcfg. eauto.
Qed.

(** X21: once get_production_config has run, generate_mrp does not answer
    'Production configuration not set' any more. *)
Theorem get_production_config_then_generate_mrp
    (clk clk' : nat -> datetime) (d : Db) (order_id : Z) :
  fst (run_request (generate_mrp order_id) clk'
         (snd (run_request get_production_config clk d)))
  <> BadRequest "Production configuration not set".
Proof.
  set (d' := snd (run_request get_production_config clk d)).
  assert (Hcfg : production_config d' <> []).
  { destruct (get_production_config_exists clk d) as (c & cs & H).
    unfold d'. rewrite H. discriminate. }
  pose proof (generate_mrp_cases clk' d' order_id) as H.
  pose proof (generate_mrp_checked clk' d' order_id) as Hchecked.
  destruct (query_get Order.id (orders d') order_id) as [order |];
    [| rewrite H; discriminate].
  destruct (production_config d') as [| config configs];
    [contradiction |].
  cbv zeta in H.
  destruct (size (explode_order d' order) =? 0)%nat eqn:Hsize;
    [rewrite H; discriminate |].
  destruct (calculate_working_days _ _ _ <=? 0) eqn:Hwd;
    [rewrite H; discriminate |].
  now apply (Hchecked order config configs _ eq_refl eq_refl Hsize Hwd).
Qed.





(** ** delete_order *)

Lemma query_get_delete_row {A : Type} (pk : A -> Z) (row : A)
    (tbl : list A) :
  query_get pk (delete_row pk row tbl) (pk row) = None.
Proof.
  unfold query_get, delete_row.
  induction tbl as [| x tbl IH]; [reflexivity |].
  cbn. destruct (pk x =? pk row) eqn:E; cbn; [exact IH |].
  now rewrite E.
Qed.

Lemma query_get_delete_row_ne {A : Type} (pk : A -> Z) (row : A)
    (tbl : list A) (k : Z) :
  k <> pk row ->
  query_get pk (delete_row pk row tbl) k = query_get pk tbl k.
Proof.
  intros Hne. unfold query_get, delete_row.
  induction tbl as [| x tbl IH]; [reflexivity |].
  cbn. destruct (Z.eqb_spec (pk x) (pk row)) as [He | Hn]; cbn.
  - destruct (Z.eqb_spec (pk x) k) as [Hk | _]; [congruence | exact IH].
  - destruct (pk x =? k); [reflexivity | exact IH].
Qed.

Lemma filter_order_removed (order_id : Z) (l : list MRPPlan.t) :
  List.filter (fun p => MRPPlan.order_id p =? order_id)
    (List.filter (fun p => negb (MRPPlan.order_id p =? order_id)) l)
  = [].
Proof.
  induction l as [| p l IH]; [reflexivity |].
  cbn. destruct (MRPPlan.order_id p =? order_id) eqn:E; cbn.
  - exact IH.
  - now rewrite E.
Qed.

Lemma line_items_removed (order_id : Z) (l : list OrderLineItem.t) :
  List.filter (fun li => OrderLineItem.order_id li =? order_id)
    (List.filter (fun li => negb (OrderLineItem.order_id li =? order_id)) l)
  = [].
Proof.
  induction l as [| li l IH]; [reflexivity |].
  cbn. destruct (OrderLineItem.order_id li =? order_id) eqn:E; cbn.
  - exact IH.
  - now rewrite E.
Qed.

Lemma line_items_of_others (order_id order_id' : Z)
    (l : list OrderLineItem.t) :
  order_id' <> order_id ->
  List.filter (fun li => OrderLineItem.order_id li =? order_id')
    (List.filter (fun li => negb (OrderLineItem.order_id li =? order_id)) l)
  = List.filter (fun li => OrderLineItem.order_id li =? order_id') l.
Proof.
  intros Hne. induction l as [| li l IH]; [reflexivity |].
  cbn.
  destruct (Z.eqb_spec (OrderLineItem.order_id li) order_id) as [He | Hn];
    cbn.
  - destruct (Z.eqb_spec (OrderLineItem.order_id li) order_id')
      as [He' | _]; [congruence | exact IH].
  - now rewrite IH.
Qed.

(** What the deletion of an order that exists stores. *)
Lemma delete_order_found (clk : nat -> datetime) (d : Db) (order_id : Z)
    (order : Order.t) :
  query_get Order.id (orders d) order_id = Some order ->
  run_request (delete_order order_id) clk d
  = (Deleted "Order deleted successfully",
     mkDb (components d) (horn_types d) (horn_type_components d)
       (delete_row Order.id order (orders d))
       (List.filter
          (fun li => negb (OrderLineItem.order_id li =? order_id))
          (order_line_items d))
       (production_config d)
       (List.filter (fun p => negb (MRPPlan.order_id p =? order_id))
          (mrp_plans d))
       (inventory_transactions d)).
Proof.
  intros Horder. pose proof (query_get_pk _ _ _ _ Horder) as Hpk.
  unfold run_request, delete_order. run_monad. rewrite Horder. run_monad.
  now rewrite Hpk.
Qed.

(** X24: deleting an order that exists removes the order with its line
    items and its plans: afterwards the order is not found,
    get_mrp_plans returns no plan for it, and generate_mrp and a second
    delete_order answer 404. *)
Theorem delete_order_cascades (clk clk' : nat -> datetime) (d : Db)
    (order_id : Z) (order : Order.t) :
  query_get Order.id (orders d) order_id = Some order ->
  exists d',
    run_request (delete_order order_id) clk d
    = (Deleted "Order deleted successfully", d')
    /\ query_get Order.id (orders d') order_id = None
    /\ line_items d' order = []
    /\ run_request (get_mrp_plans order_id) clk' d' = ([], d')
    /\ run_request (generate_mrp order_id) clk' d' = (NotFound, d')
    /\ run_request (delete_order order_id) clk' d' = (DeleteNotFound, d').
Proof.
  intros Horder. pose proof (query_get_pk _ _ _ _ Horder) as Hpk.
  eexists. split; [apply (delete_order_found clk d order_id order Horder) |].
  assert (Hgone : query_get Order.id
                    (delete_row Order.id order (orders d)) order_id = None)
    by (rewrite <- Hpk; apply query_get_delete_row).
  split; [exact Hgone |]. split.
  { unfold line_items. cbn [order_line_items]. rewrite Hpk.
    apply line_items_removed. }
  split.
  { unfold run_request, get_mrp_plans. run_monad. cbn [mrp_plans].
    now rewrite filter_order_removed. }
  split.
  - unfold run_request, generate_mrp. run_monad. cbn [orders].
    now rewrite Hgone.
  - unfold run_request, delete_order. run_monad. cbn [orders].
    now rewrite Hgone.
Qed.

Lemma delete_order_cascades_witness :
  query_get Order.id (orders capacity_example) 1
  = Some (Order.mk 1 (Some 0) (timedelta_days 58))
  /\ exists d',
       run_request (delete_order 1) (fun _ => 0) capacity_example
       = (Deleted "Order deleted successfully", d')
       /\ query_get Order.id (orders d') 1 = None
       /\ line_items d' (Order.mk 1 (Some 0) (timedelta_days 58)) = []
       /\ run_request (get_mrp_plans 1) (fun _ => 0) d' = ([], d')
       /\ run_request (generate_mrp 1) (fun _ => 0) d' = (NotFound, d')
       /\ run_request (delete_order 1) (fun _ => 0) d'
          = (DeleteNotFound, d').
Proof.
  assert (H1 : query_get Order.id (orders capacity_example) 1
               = Some (Order.mk 1 (Some 0) (timedelta_days 58)))
    by reflexivity.
  exact (conj H1
    (delete_order_cascades (fun _ => 0) (fun _ => 0) capacity_example 1 _
       H1)).
Defined.

(** X25: delete_order touches nothing else: an unknown order changes
    nothing, and in any case the other orders, their line items and their
    plans, the components, the BOMs, the configuration and the ledger are
    what they were. *)
Theorem delete_order_frame (clk clk' : nat -> datetime) (d : Db)
    (order_id : Z) :
  let d' := snd (run_request (delete_order order_id) clk d) in
  (query_get Order.id (orders d) order_id = None -> d' = d)
  /\ components d' = components d
  /\ horn_types d' = horn_types d
  /\ horn_type_components d' = horn_type_components d
  /\ production_config d' = production_config d
  /\ inventory_transactions d' = inventory_transactions d
  /\ forall order_id',
       order_id' <> order_id ->
       query_get Order.id (orders d') order_id'
       = query_get Order.id (orders d) order_id'
       /\ List.filter
            (fun li => OrderLineItem.order_id li =? order_id')
            (order_line_items d')
          = List.filter
              (fun li => OrderLineItem.order_id li =? order_id')
              (order_line_items d)
       /\ fst (run_request (get_mrp_plans order_id') clk' d')
          = fst (run_request (get_mrp_plans order_id') clk' d).
Proof.
  cbv zeta.
  destruct (query_get Order.id (orders d) order_id) as [order |] eqn:Horder.
  - rewrite (delete_order_found clk d order_id order Horder).
    cbn [snd components horn_types horn_type_components production_config
         inventory_transactions orders order_line_items].
    split; [discriminate |]. repeat (split; [reflexivity |]).
    intros order_id' Hne.
    pose proof (query_get_pk _ _ _ _ Horder) as Hpk.
    split; [apply query_get_delete_row_ne; now rewrite Hpk |].
    split; [now apply line_items_of_others |].
    unfold run_request, get_mrp_plans. run_monad. cbn [mrp_plans].
    now apply filter_order_of_others.
  - assert (Hrun : run_request (delete_order order_id) clk d
                   = (DeleteNotFound, d)).
    { unfold run_request, delete_order. run_monad. now rewrite Horder. }
    rewrite Hrun. cbn [snd]. now repeat split.
Qed.

(** ** The BOM routes *)

Lemma find_app_last {A : Type} (f : A -> bool) (l : list A) (x : A) :
  List.find f l = None -> f x = true -> List.find f (l ++ [x]) = Some x.
Proof.
  intros Hnone Hx. induction l as [| y l IH]; cbn in *.
  - now rewrite Hx.
  - destruct (f y); [discriminate | now apply IH].
Qed.


Lemma find_bom_item_none (d : Db) (hid cid : Z) (b : HornTypeComponent.t) :
  find_bom_item d hid cid = None ->
  In b (horn_type_components d) ->
  HornTypeComponent.horn_type_id b = hid ->
  HornTypeComponent.component_id b <> cid.
Proof.
  unfold find_bom_item. intros H Hin Hh Hc.
  pose proof (find_none _ _ H b Hin) as Hb. cbn in Hb.
  rewrite Hh, Hc, !Z.eqb_refl in Hb. discriminate.
Qed.

(** Every path through the handler, with the database it leaves. *)
Lemma add_component_to_horn_type_cases (clk : nat -> datetime) (d : Db)
    (hid : Z) (data : BomData) :
  match query_get HornType.id (horn_types d) hid with
  | None =>
      run_request (add_component_to_horn_type hid data) clk d
      = (BomNotFound, d)
  | Some h =>
  match bom_component_id data with
  | None =>
      run_request (add_component_to_horn_type hid data) clk d
      = (BomKeyError, d)
  | Some cid =>
  match find_bom_item d hid cid with
  | Some existing =>
      run_request (add_component_to_horn_type hid data) clk d
      = (BomBadRequest "Component already in this horn type BOM", d)
  | None =>
  match bom_quantity_per_horn data with
  | None =>
      run_request (add_component_to_horn_type hid data) clk d
      = (BomKeyError, d)
  | Some q =>
      let item :=
        HornTypeComponent.mk
          (fresh_id HornTypeComponent.id (horn_type_components d))
          hid cid q in
      run_request (add_component_to_horn_type hid data) clk d
      = (BomJson 201 item,
         with_horn_type_components d (horn_type_components d ++ [item]))
  end end end end.
Proof.
  unfold run_request, add_component_to_horn_type. run_monad.
  destruct (query_get HornType.id (horn_types d) hid) as [h |];
    [| reflexivity].
  destruct (bom_component_id data) as [cid |]; [| reflexivity].
  destruct (find_bom_item d hid cid) as [existing |]; [reflexivity |].
  destruct (bom_quantity_per_horn data) as [q |]; reflexivity.
Qed.

(** A BOM entry that was added, read backwards. *)
Lemma add_component_to_horn_type_added (clk : nat -> datetime) (d d' : Db)
    (hid : Z) (data : BomData) (code : Z) (item : HornTypeComponent.t) :
  run_request (add_component_to_horn_type hid data) clk d
  = (BomJson code item, d') ->
  exists h cid q,
    query_get HornType.id (horn_types d) hid = Some h
    /\ bom_component_id data = Some cid
    /\ bom_quantity_per_horn data = Some q
    /\ find_bom_item d hid cid = None
    /\ item
       = HornTypeComponent.mk
           (fresh_id HornTypeComponent.id (horn_type_components d))
           hid cid q
    /\ d' = with_horn_type_components d (horn_type_components d ++ [item]).
Proof.
  intros Hrun.
  pose proof (add_component_to_horn_type_cases clk d hid data) as H.
  destruct (query_get HornType.id (horn_types d) hid) as [h |];
    [| congruence].
  destruct (bom_component_id data) as [cid |]; [| congruence].
  destruct (find_bom_item d hid cid) as [existing |] eqn:Hfind;
    [congruence |].
  destruct (bom_quantity_per_horn data) as [q |]; [| congruence].
  cbv zeta in H. rewrite Hrun in H. injection H as _ -> ->.
  now exists h, cid, q.
Qed.

(** X26: a BOM entry that add_component_to_horn_type stores is found
    afterwards under its product type and component with the quantity of
    the body, it is the last entry of that product type's BOM, and the same
    request sent again is refused with 'Component already in this horn type
    BOM' and changes nothing. *)
Theorem add_component_to_horn_type_once (clk clk' : nat -> datetime)
    (d d' : Db) (hid : Z) (data : BomData) (code : Z)
    (item : HornTypeComponent.t) :
  run_request (add_component_to_horn_type hid data) clk d
  = (BomJson code item, d') ->
  bom_component_id data = Some (HornTypeComponent.component_id item)
  /\ bom_quantity_per_horn data
     = Some (HornTypeComponent.quantity_per_horn item)
  /\ find_bom_item d' hid (HornTypeComponent.component_id item) = Some item
  /\ (forall h,
        HornType.id h = hid ->
        bom_components d' h = bom_components d h ++ [item])
  /\ run_request (add_component_to_horn_type hid data) clk' d'
     = (BomBadRequest "Component already in this horn type BOM", d').
Proof.
  intros Hrun.
  destruct (add_component_to_horn_type_added _ _ _ _ _ _ _ Hrun)
    as (h & cid & q & Hh & Hcid & Hq & Hnone & -> & ->).
  cbn [HornTypeComponent.component_id HornTypeComponent.quantity_per_horn].
  split; [exact Hcid |]. split; [exact Hq |].
  set (item := HornTypeComponent.mk _ hid cid q).
  assert (Hfind : find_bom_item
                    (with_horn_type_components d
                       (horn_type_components d ++ [item])) hid cid
                  = Some item).
  { unfold find_bom_item in *.
    cbn [horn_type_components with_horn_type_components].
    apply find_app_last; [exact Hnone |].
    cbn. now rewrite !Z.eqb_refl. }
  split; [exact Hfind |]. split.
  - intros h' Hh'. unfold bom_components.
    cbn [horn_type_components with_horn_type_components].
    rewrite List.filter_app. cbn. now rewrite Hh', Z.eqb_refl.
  - pose proof (add_component_to_horn_type_cases clk'
                  (with_horn_type_components d
                     (horn_type_components d ++ [item])) hid data) as H.
    cbn [horn_types with_horn_type_components] in H.
    now rewrite Hh, Hcid, Hfind in H.
Qed.

Lemma add_component_to_horn_type_once_witness :
  exists item d',
    run_request
      (add_component_to_horn_type 2 (mkBomData (Some 1) (Some 3%float)))
      (fun _ => 0) schedule_example_two_types
    = (BomJson 201 item, d')
    /\ find_bom_item d' 2 1 = Some item
    /\ run_request
         (add_component_to_horn_type 2 (mkBomData (Some 1) (Some 3%float)))
         (fun _ => 0) d'
       = (BomBadRequest "Component already in this horn type BOM", d').
Proof.
  eexists _, _. split; [vm_compute; reflexivity |].
  assert (H := add_component_to_horn_type_once (fun _ => 0) (fun _ => 0)
                 schedule_example_two_types
                 (with_horn_type_components schedule_example_two_types
                    (horn_type_components schedule_example_two_types
                     ++ [HornTypeComponent.mk 3 2 1 3]))
                 2 (mkBomData (Some 1) (Some 3%float)) 201
                 (HornTypeComponent.mk 3 2 1 3) eq_refl).
  split; [exact (proj1 (proj2 (proj2 H))) |].
  exact (proj2 (proj2 (proj2 (proj2 H)))).
Defined.

Lemma NoDup_snoc (l : list Z) (x : Z) :
  List.NoDup l -> ~ In x l -> List.NoDup (l ++ [x]).
Proof.
  induction 1 as [| y l Hy Hnd IH]; intros Hx; cbn.
  - constructor; [intros [] | constructor].
  - constructor.
    + rewrite in_app_iff. intros [H | [H | []]]; [now apply Hy |].
      apply Hx. now left.
    + apply IH. intros H. apply Hx. now right.
Qed.

Lemma remove_component_from_horn_type_cases (clk : nat -> datetime)
    (d : Db) (hid cid : Z) :
  match find_bom_item d hid cid with
  | None =>
      run_request (remove_component_from_horn_type hid cid) clk d
      = (BomNotFound, d)
  | Some item =>
      run_request (remove_component_from_horn_type hid cid) clk d
      = (BomMessage "Component removed from horn type",
         with_horn_type_components d
           (delete_row HornTypeComponent.id item (horn_type_components d)))
  end.
Proof.
  unfold run_request, remove_component_from_horn_type. run_monad.
  destruct (find_bom_item d hid cid); reflexivity.
Qed.

(** X27: the routes that add and remove BOM entries keep the BOMs
    distinct: if no product type has two entries for one component before
    the request, none has after it. *)
Theorem bom_routes_keep_distinct (clk : nat -> datetime) (d : Db)
    (hid : Z) (data : BomData) (hid' cid : Z) :
  bom_distinct d ->
  bom_distinct
    (snd (run_request (add_component_to_horn_type hid data) clk d))
  /\ bom_distinct
       (snd (run_request (remove_component_from_horn_type hid' cid) clk d)).
Proof.
  intros Hd. split.
  - pose proof (add_component_to_horn_type_cases clk d hid data) as H.
    destruct (query_get HornType.id (horn_types d) hid) as [h |];
      [| now rewrite H].
    destruct (bom_component_id data) as [c |]; [| now rewrite H].
    destruct (find_bom_item d hid c) as [existing |] eqn:Hfind;
      [now rewrite H |].
    destruct (bom_quantity_per_horn data) as [q |]; [| now rewrite H].
    cbv zeta in H. rewrite H. cbn [snd]. intros hid0.
    cbn [horn_type_components with_horn_type_components].
    rewrite List.filter_app. cbn [List.filter HornTypeComponent.horn_type_id].
    destruct (Z.eqb_spec hid hid0) as [<- | Hne].
    + rewrite List.map_app. cbn [List.map HornTypeComponent.component_id].
      apply NoDup_snoc; [apply Hd |].
      intros Hin. apply in_map_iff in Hin as (b & Hb & Hin).
      apply filter_In in Hin as [Hin Hh]. apply Z.eqb_eq in Hh.
      now apply (find_bom_item_none d hid c b Hfind Hin Hh).
    + rewrite app_nil_r. apply Hd.
  - pose proof (remove_component_from_horn_type_cases clk d hid' cid) as H.
    destruct (find_bom_item d hid' cid) as [item |]; [| now rewrite H].
    rewrite H. cbn [snd]. intros hid0.
    cbn [horn_type_components with_horn_type_components].
    unfold delete_row.
    assert (Hswap : forall l : list HornTypeComponent.t,
               List.filter
                 (fun b => HornTypeComponent.horn_type_id b =? hid0)
                 (List.filter
                    (fun r => negb (HornTypeComponent.id r
                                    =? HornTypeComponent.id item)) l)
               = List.filter
                   (fun r => negb (HornTypeComponent.id r
                                   =? HornTypeComponent.id item))
                   (List.filter
                      (fun b => HornTypeComponent.horn_type_id b =? hid0)
                      l)).
    { induction l as [| b l IH]; [reflexivity |].
      cbn. destruct (HornTypeComponent.id b =? HornTypeComponent.id item)
             eqn:E1;
        destruct (HornTypeComponent.horn_type_id b =? hid0) eqn:E2;
        cbn; rewrite ?E1, ?E2; cbn; now rewrite IH. }
    rewrite Hswap. apply NoDup_map_filter. apply Hd.
Qed.

Lemma schedule_example_two_types_distinct :
  bom_distinct schedule_example_two_types.
Proof.
  intros hid. unfold schedule_example_two_types.
  cbn [horn_type_components List.filter HornTypeComponent.horn_type_id].
  destruct (1 =? hid); cbn; [| constructor].
  constructor; [intros [H | []]; discriminate H |].
  constructor; [intros [] | constructor].
Qed.

Lemma bom_routes_keep_distinct_witness :
  bom_distinct schedule_example_two_types
  /\ bom_distinct
       (snd (run_request
               (add_component_to_horn_type 2 (mkBomData (Some 1) (Some 3%float)))
               (fun _ => 0) schedule_example_two_types))
  /\ bom_distinct
       (snd (run_request (remove_component_from_horn_type 1 2)
               (fun _ => 0) schedule_example_two_types)).
Proof.
  exact (conj schedule_example_two_types_distinct
    (bom_routes_keep_distinct (fun _ => 0) schedule_example_two_types 2
       (mkBomData (Some 1) (Some 3%float)) 1 2
       schedule_example_two_types_distinct)).
Defined.

Lemma filter_nil {A : Type} (f : A -> bool) (l : list A) :
  (forall x, In x l -> f x = false) -> List.filter f l = [].
Proof.
  induction l as [| x l IH]; intros H; [reflexivity |].
  cbn. rewrite (H x (or_introl eq_refl)). apply IH.
  intros y Hy. apply H. now right.
Qed.

Lemma flat_map_ext_In {A B : Type} (f g : A -> list B) (l : list A) :
  (forall a, In a l -> f a = g a) -> flat_map f l = flat_map g l.
Proof.
  induction l as [| x l IH]; intros H; [reflexivity |].
  cbn [flat_map]. rewrite (H x (or_introl eq_refl)). f_equal.
  apply IH. intros a Ha. apply H. now right.
Qed.

(** The contributions of a line item after a BOM entry is appended: the
    new entry contributes after the others, to its component, for the
    line items of its product type. *)
Lemma contributions_of_added (d : Db) (h0 : HornType.t)
    (item : HornTypeComponent.t) (li : OrderLineItem.t) (cid' : Z) :
  query_get HornType.id (horn_types d)
    (HornTypeComponent.horn_type_id item)
  = Some h0 ->
  contributions_of
    (with_horn_type_components d (horn_type_components d ++ [item]))
    cid' li
  = contributions_of d cid' li
    ++ (if (OrderLineItem.horn_type_id li
            =? HornTypeComponent.horn_type_id item)
           && (HornTypeComponent.component_id item =? cid')
        then [contribution li item] else []).
Proof.
  intros Hh0. unfold contributions_of.
  change (horn_type (with_horn_type_components d
                       (horn_type_components d ++ [item])) li)
    with (horn_type d li).
  destruct (horn_type d li) as [h |] eqn:Hh.
  - pose proof (query_get_pk _ _ _ _ Hh) as Hpk.
    unfold bom_components.
    cbn [horn_type_components with_horn_type_components].
    rewrite !List.filter_app, List.map_app. rewrite Hpk.
    cbn [List.filter].
    rewrite (Z.eqb_sym (OrderLineItem.horn_type_id li)).
    destruct (HornTypeComponent.horn_type_id item
              =? OrderLineItem.horn_type_id li);
      cbn [List.filter andb]; [| reflexivity].
    now destruct (HornTypeComponent.component_id item =? cid').
  - destruct (Z.eqb_spec (OrderLineItem.horn_type_id li)
                (HornTypeComponent.horn_type_id item)) as [He | _];
      [| reflexivity].
    unfold horn_type in Hh. rewrite He, Hh0 in Hh. discriminate.
Qed.

(** Before the entry is added, a line item of its product type contributes
    nothing to its component. *)
Lemma contributions_of_absent (d : Db) (hid cid : Z)
    (li : OrderLineItem.t) :
  find_bom_item d hid cid = None ->
  OrderLineItem.horn_type_id li = hid ->
  contributions_of d cid li = [].
Proof.
  intros Hnone Hli. unfold contributions_of.
  destruct (horn_type d li) as [h |] eqn:Hh; [| reflexivity].
  pose proof (query_get_pk _ _ _ _ Hh) as Hpk.
  rewrite filter_nil; [reflexivity |].
  intros b Hb. unfold bom_components in Hb.
  apply filter_In in Hb as [Hin Hbh]. apply Z.eqb_eq in Hbh.
  apply Z.eqb_neq.
  apply (find_bom_item_none d hid cid b Hnone Hin). congruence.
Qed.

(** X28: after add_component_to_horn_type stores an entry of q units of a
    component for a product type, the exploded demand of every order for
    every other component is as it was; an order without a line item of
    that product type has the exploded demand it had; and the demand for
    the component is what is accumulated, in floating point and in the
    order of the line items, from the product of the quantity and q for
    every line item of that product type and from the earlier contributions
    of the other line items. *)
Theorem add_component_to_horn_type_demand (clk : nat -> datetime)
    (d d' : Db) (hid : Z) (data : BomData) (code : Z)
    (item : HornTypeComponent.t) (o : Order.t) :
  run_request (add_component_to_horn_type hid data) clk d
  = (BomJson code item, d') ->
  (forall cid',
     cid' <> HornTypeComponent.component_id item ->
     explode_order d' o !! cid' = explode_order d o !! cid')
  /\ ((forall li,
         In li (line_items d o) -> OrderLineItem.horn_type_id li <> hid) ->
      explode_order d' o = explode_order d o)
  /\ explode_order d' o !! HornTypeComponent.component_id item
     = accumulate None
         (flat_map
            (fun li =>
               if OrderLineItem.horn_type_id li =? hid
               then [contribution li item]
               else contributions_of d
                      (HornTypeComponent.component_id item) li)
            (line_items d o)).
Proof.
  intros Hrun.
  destruct (add_component_to_horn_type_added _ _ _ _ _ _ _ Hrun)
    as (h & cid & q & Hh & _ & _ & Hnone & Hitem & ->).
  assert (Hhid : HornTypeComponent.horn_type_id item = hid)
    by (now rewrite Hitem).
  assert (Hcid : HornTypeComponent.component_id item = cid)
    by (now rewrite Hitem).
  rewrite <- Hhid in Hh.
  set (d' := with_horn_type_components d (horn_type_components d ++ [item])).
  assert (Hlines : line_items d' o = line_items d o) by reflexivity.
  assert (Hother : forall cid' li,
             cid' <> HornTypeComponent.component_id item
             \/ OrderLineItem.horn_type_id li <> hid ->
             contributions_of d' cid' li = contributions_of d cid' li).
  { intros cid' li Hne. unfold d'.
    rewrite (contributions_of_added d h item li cid' Hh), Hhid.
    destruct (Z.eqb_spec (OrderLineItem.horn_type_id li) hid) as [He | _];
      [| now rewrite app_nil_r].
    destruct (Z.eqb_spec (HornTypeComponent.component_id item) cid')
      as [Hc | _]; [| now rewrite app_nil_r].
    destruct Hne as [Hne | Hne]; congruence. }
  split; [| split].
  - intros cid' Hne. rewrite !explode_order_lookup. unfold contributions.
    rewrite Hlines. f_equal.
    apply flat_map_ext. intros li. apply Hother. now left.
  - intros Hnone'. apply map_eq. intros cid'.
    rewrite !explode_order_lookup. unfold contributions. rewrite Hlines.
    f_equal. apply flat_map_ext_In. intros li Hin.
    apply Hother. right. now apply Hnone'.
  - rewrite explode_order_lookup. unfold contributions. rewrite Hlines.
    f_equal. apply flat_map_ext. intros li.
    destruct (Z.eqb_spec (OrderLineItem.horn_type_id li) hid) as [He | Hne].
    + unfold d'.
      rewrite (contributions_of_added d h item li _ Hh), Hhid, Hcid.
      rewrite (contributions_of_absent d hid cid li Hnone He).
      apply Z.eqb_eq in He. now rewrite He, Z.eqb_refl.
    + apply Hother. now right.
Qed.

Lemma add_component_to_horn_type_demand_witness :
  exists item d' o,
    run_request
      (add_component_to_horn_type 2 (mkBomData (Some 1) (Some 0.1%float)))
      (fun _ => 0) schedule_example_two_types
    = (BomJson 201 item, d')
    /\ query_get Order.id (orders schedule_example_two_types) 1 = Some o
    /\ explode_order schedule_example_two_types o !! 1 = Some 200%float
    /\ explode_order d' o !! 1 = Some 204%float
    /\ (forall cid',
          cid' <> HornTypeComponent.component_id item ->
          explode_order d' o !! cid'
          = explode_order schedule_example_two_types o !! cid')
    /\ ((forall li,
           In li (line_items schedule_example_two_types o) ->
           OrderLineItem.horn_type_id li <> 2) ->
        explode_order d' o = explode_order schedule_example_two_types o)
    /\ explode_order d' o !! HornTypeComponent.component_id item
       = accumulate None
           (flat_map
              (fun li =>
                 if OrderLineItem.horn_type_id li =? 2
                 then [contribution li item]
                 else contributions_of schedule_example_two_types
                        (HornTypeComponent.component_id item) li)
              (line_items schedule_example_two_types o)).
Proof.
  eexists _, _, _. split; [vm_compute; reflexivity |].
  split; [reflexivity |]. split; [vm_compute; reflexivity |].
  split; [vm_compute; reflexivity |].
  exact (add_component_to_horn_type_demand (fun _ => 0)
           schedule_example_two_types _ 2
           (mkBomData (Some 1) (Some 0.1%float)) 201
           (HornTypeComponent.mk 3 2 1 0.1)
           (Order.mk 1 (Some (timedelta_days 100)) (timedelta_days 130))
           eq_refl).
Defined.

Lemma fresh_id_gt {A : Type} (pk : A -> Z) (tbl : list A) (r : A) :
  In r tbl -> pk r < fresh_id pk tbl.
Proof.
  unfold fresh_id. induction tbl as [| x tbl IH]; [intros [] |].
  cbn. intros [<- | Hin]; [lia |].
  specialize (IH Hin). lia.
Qed.

Lemma delete_row_appended {A : Type} (pk : A -> Z) (tbl : list A)
    (row : A) :
  pk row = fresh_id pk tbl -> delete_row pk row (tbl ++ [row]) = tbl.
Proof.
  intros Hpk. unfold delete_row. rewrite List.filter_app. cbn.
  rewrite Z.eqb_refl. cbn. rewrite app_nil_r.
  assert (H : forall r, In r tbl -> negb (pk r =? pk row) = true).
  { intros r Hin. pose proof (fresh_id_gt pk tbl r Hin) as Hlt.
    apply negb_true_iff, Z.eqb_neq. lia. }
  clear Hpk. induction tbl as [| x tbl IH]; [reflexivity |].
  cbn. rewrite (H x (or_introl eq_refl)). f_equal.
  apply IH. intros r Hin. apply H. now right.
Qed.

(** X29: removing a BOM entry right after add_component_to_horn_type stored
    it gives back the database from before the two requests. *)
Theorem add_then_remove_component (clk clk' : nat -> datetime) (d d' : Db)
    (hid : Z) (data : BomData) (code : Z) (item : HornTypeComponent.t) :
  run_request (add_component_to_horn_type hid data) clk d
  = (BomJson code item, d') ->
  run_request
    (remove_component_from_horn_type hid
       (HornTypeComponent.component_id item))
    clk' d'
  = (BomMessage "Component removed from horn type", d).
Proof.
  intros Hrun.
  destruct (add_component_to_horn_type_added _ _ _ _ _ _ _ Hrun)
    as (h & cid & q & _ & _ & _ & Hnone & Hitem & ->).
  assert (Hcid : HornTypeComponent.component_id item = cid)
    by (now rewrite Hitem).
  assert (Hfind : find_bom_item
                    (with_horn_type_components d
                       (horn_type_components d ++ [item])) hid cid
                  = Some item).
  { unfold find_bom_item in *.
    cbn [horn_type_components with_horn_type_components].
    apply find_app_last; [exact Hnone |].
    rewrite Hitem. cbn. now rewrite !Z.eqb_refl. }
  pose proof (remove_component_from_horn_type_cases clk'
                (with_horn_type_components d
                   (horn_type_components d ++ [item])) hid cid) as H.
  rewrite Hfind in H. rewrite Hcid, H.
  cbn [horn_type_components with_horn_type_components].
  rewrite delete_row_appended by (now rewrite Hitem).
  now destruct d.
Qed.

Lemma add_then_remove_component_witness :
  exists item d',
    run_request
      (add_component_to_horn_type 2 (mkBomData (Some 1) (Some 3%float)))
      (fun _ => 0) schedule_example_two_types
    = (BomJson 201 item, d')
    /\ d' <> schedule_example_two_types
    /\ run_request
         (remove_component_from_horn_type 2
            (HornTypeComponent.component_id item))
         (fun _ => 0) d'
       = (BomMessage "Component removed from horn type",
          schedule_example_two_types).
Proof.
  eexists _, _. split; [vm_compute; reflexivity |].
  split; [discriminate |].
  exact (add_then_remove_component (fun _ => 0) (fun _ => 0)
           schedule_example_two_types _ 2 (mkBomData (Some 1) (Some 3%float))
           201 (HornTypeComponent.mk 3 2 1 3) eq_refl).
Defined.


